(** * Predictive maintenance: connectors, supervisor, feature engineering

    A shallow embedding of the ingestion core of the repository:

    - [backend/connectors/data_connector.py]: the connector base class, the
      CSV, REST, Modbus and OPC-UA connectors and their polling loops;
    - [backend/main.py]: the registry of active connectors with its
      [setup_connector], [stop_connector] and [list_connectors] handlers;
    - [backend/app/main.py]: the rule-based branch of [run_prediction];
    - [backend/models/data_processor.py]: [_engineer_features].

    Python values are embedded as follows.  A [float] is a binary64 number,
    so it is a primitive float of the kernel, with the same rounding.  An
    [int] is a [Z].  A [dict] keyed by strings is a [gmap string _]; where
    the code iterates a dict and the order of the items can be observed (the
    register map, whose first failing entry decides which exception is
    raised) the items are kept as an association list.  Exceptions are the
    [Raise] results of a small error monad.  What the code obtains from the
    outside (files, sockets, the clock, other threads) is an explicit
    argument of the function that uses it. *)

From Stdlib Require Import ZArith List String Ascii Strings.Byte Floats Lia
  Bool.
From stdpp Require Import base option list gmap strings.

Set Warnings "-inexact-float,-clear-no-such-hyp".
Local Open Scope string_scope.
Local Open Scope Z_scope.

(** ** Python runtime values and exceptions *)

Module Py.

(** The exceptions of class [Exception] that the program raises or that its
    libraries raise into it; [OtherError] stands for any other subclass of
    [Exception].  [KeyboardInterrupt], [SystemExit] and [GeneratorExit],
    which an [except Exception] clause lets through, are not modelled: no
    code of the repository raises them. *)
Inductive exn : Type :=
| IndexError
| ZeroDivisionError
| ValueError (msg : string)
| TypeError
| OverflowError
| FileNotFoundError (msg : string)
| ConnectionError (msg : string)
| HTTPException (status_code : Z) (detail : string)
| OtherError (name : string).

Inductive result (A : Type) : Type :=
| Ok (a : A)
| Raise (e : exn).
Arguments Ok {A} a.
Arguments Raise {A} e.

#[global] Instance result_ret : MRet result := fun A a => Ok a.
#[global] Instance result_bind : MBind result :=
  fun A B f m => match m with Ok a => f a | Raise e => Raise e end.

Definition is_ok {A} (r : result A) : bool :=
  match r with Ok _ => true | Raise _ => false end.

(** [str(e)] as the handlers interpolate it into their messages. *)
Definition str_exn (e : exn) : string :=
  match e with
  | IndexError => "list index out of range"
  | ZeroDivisionError => "integer division or modulo by zero"
  | ValueError msg => msg
  | TypeError => "unsupported operand type(s)"
  | OverflowError => "int too large to convert to float"
  | FileNotFoundError msg => msg
  | ConnectionError msg => msg
  | HTTPException _ detail => detail
  | OtherError name => name
  end.

Inductive pyval : Type :=
| PyNone
| PyFloat (f : float)
| PyInt (z : Z)
| PyBool (b : bool)
| PyStr (s : string)
| PyOther (repr : string).

(** The [logging] module: a record is a level and a message. *)
Inductive level : Type := INFO | WARNING | ERROR.

#[global] Instance level_eq_dec : EqDecision level.
Proof. solve_decision. Defined.

Definition log_record : Type := level * string.

Definition has_level (l : level) (log : list log_record) : bool :=
  existsb (fun r => bool_decide (fst r = l)) log.

(** [float(n)] for an [int n]: the nearest binary64 number, ties to even,
    and [OverflowError] beyond the largest finite one. *)
Definition float_of_int (z : Z) : result float :=
  match binary_normalize prec emax z 0 false with
  | S754_infinity _ => Raise OverflowError
  | sf => Ok (SF2Prim sf)
  end.

(** [int(x)] for a [float x]: truncation towards zero; [ValueError] on a
    NaN and [OverflowError] on an infinity. *)
Definition int_of_float (x : float) : result Z :=
  match Prim2SF x with
  | S754_nan => Raise (ValueError "cannot convert float NaN to integer")
  | S754_infinity _ => Raise OverflowError
  | S754_zero _ => Ok 0
  | S754_finite s m e =>
      let a := if 0 <=? e then Z.shiftl (Z.pos m) e
               else Z.shiftr (Z.pos m) (- e) in
      Ok (if s then - a else a)
  end.

Fixpoint str_repeat (s : string) (n : nat) : string :=
  match n with
  | O => ""
  | S n' => s +:+ str_repeat s n'
  end.

(** [a * b].  A [bool] is an [int] (0 or 1); [int * float] converts the
    [int]; [int * str] repeats the string; anything else raises
    [TypeError]. *)
Inductive operand : Type :=
| OInt (z : Z)
| OFloat (x : float)
| OStr (s : string)
| ONone.

Definition operand_of (v : pyval) : operand :=
  match v with
  | PyInt z => OInt z
  | PyBool b => OInt (if b then 1 else 0)
  | PyFloat x => OFloat x
  | PyStr s => OStr s
  | PyNone | PyOther _ => ONone
  end.

Definition py_mul (a b : pyval) : result pyval :=
  match operand_of a, operand_of b with
  | OInt x, OInt y => Ok (PyInt (x * y))
  | OFloat x, OFloat y => Ok (PyFloat (x * y))
  | OInt x, OFloat y => x' ← float_of_int x; Ok (PyFloat (x' * y))
  | OFloat x, OInt y => y' ← float_of_int y; Ok (PyFloat (x * y'))
  | OInt n, OStr s | OStr s, OInt n => Ok (PyStr (str_repeat s (Z.to_nat n)))
  | _, _ => Raise TypeError
  end.

(** [str(v)] as the log messages interpolate it; the digits of a number
    are not spelled out. *)
Definition py_str (v : pyval) : string :=
  match v with
  | PyNone => "None"
  | PyFloat _ => "<float>"
  | PyInt _ => "<int>"
  | PyBool b => if b then "True" else "False"
  | PyStr s => s
  | PyOther repr => repr
  end.

(** [l[i]]: a negative index counts from the end, an index out of range
    raises [IndexError]. *)
Definition py_index {A} (l : list A) (i : Z) : result A :=
  let n := Z.of_nat (length l) in
  let j := if i <? 0 then i + n else i in
  if (0 <=? j) && (j <? n) then
    match l !! Z.to_nat j with
    | Some a => Ok a
    | None => Raise IndexError
    end
  else Raise IndexError.

(** The indices that [l[i]] accepts without counting from the end. *)
Definition in_bounds {A} (l : list A) (i : Z) : Prop :=
  0 <= i < Z.of_nat (length l).

(** [a % b] on [int]: the sign of the result is the sign of [b]. *)
Definition py_mod (a b : Z) : result Z :=
  if b =? 0 then Raise ZeroDivisionError else Ok (a mod b).

End Py.
Import Py.


(** ** [backend/connectors/data_connector.py]: the base class *)

(** A reading is the dict that [process_reading] builds. *)
Abbreviation reading := (gmap string pyval).

(** What a connector is given to process: a dict, or any other value. *)
Inductive pydata : Type :=
| DataDict (d : reading)
| DataOther (v : pyval).

(** The four connector classes, each with the positional arguments of its
    constructor. *)
Inductive source : Type :=
| CSVFile (file_path : pyval)
| API (api_url : pyval)
| Modbus (host port : pyval)
| OPCUA (server_url : pyval).

Definition class_name (s : source) : string :=
  match s with
  | CSVFile _ => "CSVFileConnector"
  | API _ => "APIConnector"
  | Modbus _ _ => "ModbusConnector"
  | OPCUA _ => "OPCUAConnector"
  end.

(** One entry of the [registers] dict of a Modbus connector: the keys are
    optional, [config.get(key, default)] supplies the defaults. *)
Record register_config : Type := {
  cfg_type : option string;
  cfg_address : option Z;
  cfg_count : option Z;
  cfg_data_type : option string;
  cfg_scaling : option pyval;
}.

(** The [config] dict of a connector, with the keys the classes read. *)
Record connector_config : Type := {
  cfg_interval : option pyval;
  cfg_unit_id : option Z;
  cfg_registers : list (string * register_config);
  cfg_nodes : list (string * string);
}.

Definition callback_t : Type := reading -> result unit.

(** A connector object.  [thread] says whether [read_data(loop=True)] has
    created the polling thread; [client] whether [connect] has created the
    protocol client. *)
Record connector : Type := {
  equipment_id : string;
  src : source;
  config : connector_config;
  connected : bool;
  loop : bool;
  thread : bool;
  client : bool;
  last_reading : option reading;
  callback : option callback_t;
}.

Definition set_connected (b : bool) (c : connector) : connector :=
  {| equipment_id := equipment_id c; src := src c; config := config c;
     connected := b; loop := loop c; thread := thread c; client := client c;
     last_reading := last_reading c; callback := callback c |}.

Definition set_loop (b : bool) (c : connector) : connector :=
  {| equipment_id := equipment_id c; src := src c; config := config c;
     connected := connected c; loop := b; thread := thread c;
     client := client c; last_reading := last_reading c;
     callback := callback c |}.

Definition set_thread (b : bool) (c : connector) : connector :=
  {| equipment_id := equipment_id c; src := src c; config := config c;
     connected := connected c; loop := loop c; thread := b;
     client := client c; last_reading := last_reading c;
     callback := callback c |}.

Definition set_client (b : bool) (c : connector) : connector :=
  {| equipment_id := equipment_id c; src := src c; config := config c;
     connected := connected c; loop := loop c; thread := thread c;
     client := b; last_reading := last_reading c; callback := callback c |}.

Definition set_last_reading (r : reading) (c : connector) : connector :=
  {| equipment_id := equipment_id c; src := src c; config := config c;
     connected := connected c; loop := loop c; thread := thread c;
     client := client c; last_reading := Some r; callback := callback c |}.

(** [DataConnector.set_callback] *)
Definition set_callback (cb : callback_t) (c : connector) : connector :=
  {| equipment_id := equipment_id c; src := src c; config := config c;
     connected := connected c; loop := loop c; thread := thread c;
     client := client c; last_reading := last_reading c;
     callback := Some cb |}.

(** [DataConnector.__init__] followed by the subclass's [__init__]. *)
Definition new_connector (eid : string) (s : source)
    (cfg : connector_config) : connector :=
  {| equipment_id := eid; src := s; config := cfg; connected := false;
     loop := false; thread := false; client := false;
     last_reading := None; callback := None |}.

(** What a polling thread leaves behind: the records it logged, the readings
    it handed to the callback (oldest first) and how many times it has read
    the clock. *)
Record world : Type := {
  clock : nat;
  log : list log_record;
  delivered : list reading;
}.

Definition world0 : world := {| clock := 0; log := []; delivered := [] |}.

Definition emit (l : level) (msg : string) (w : world) : world :=
  {| clock := clock w; log := log w ++ [(l, msg)]; delivered := delivered w |}.

Definition tick_clock (w : world) : world :=
  {| clock := S (clock w); log := log w; delivered := delivered w |}.

Definition deliver (r : reading) (w : world) : world :=
  {| clock := clock w; log := log w; delivered := delivered w ++ [r] |}.

Section Acquisition.

(** [datetime.utcnow().isoformat()] at the n-th reading of the clock. *)
Variable utcnow_iso : nat -> string.

(** [DataConnector.process_reading]: the reading starts as the connector's
    id and the acquisition time, [reading.update(data)] then writes every
    key of [data] over it. *)
Definition build_reading (c : connector) (timestamp : string)
    (data : pydata) : reading :=
  let base : reading :=
    <["timestamp" := PyStr timestamp]>
      (<["equipment_id" := PyStr (equipment_id c)]> ∅) in
  match data with
  | DataDict d => d ∪ base
  | DataOther v => <["value" := v]> base
  end.

Definition process_reading (c : connector) (data : pydata) (w : world)
    : world * connector * result reading :=
  let timestamp := utcnow_iso (clock w) in
  let w := tick_clock w in
  let r := build_reading c timestamp data in
  let c := set_last_reading r c in
  match callback c with
  | Some cb =>
      (deliver r w, c, match cb r with Ok _ => Ok r | Raise e => Raise e end)
  | None => (w, c, Ok r)
  end.

End Acquisition.

(** [time.sleep(secs)] (CPython 3.11).  The argument is first converted to
    a number of nanoseconds in a signed 64-bit integer: a float is
    multiplied by [1e9] in binary64, a NaN raises [ValueError] and a product
    outside [[-2^63, 2^63)] (an infinity included) raises [OverflowError];
    an integer is multiplied by [10^9], and a product outside
    [[-2^63, 2^63 - 1]] raises [OverflowError].  A negative length then
    raises [ValueError]. *)
Definition py_sleep (secs : pyval) : result unit :=
  match operand_of secs with
  | OFloat x =>
      if PrimFloat.is_nan x
      then Raise (ValueError "Invalid value NaN (not a number)")
      else
        match int_of_float (x * 1e9)%float with
        | Raise _ => Raise OverflowError
        | Ok ns =>
            if (- 2 ^ 63 <=? ns) && (ns <? 2 ^ 63) then
              if PrimFloat.ltb x 0%float
              then Raise (ValueError "sleep length must be non-negative")
              else Ok tt
            else Raise OverflowError
        end
  | OInt n =>
      if (- 2 ^ 63 <=? n * 10 ^ 9) && (n * 10 ^ 9 <=? 2 ^ 63 - 1) then
        if n <? 0 then Raise (ValueError "sleep length must be non-negative")
        else Ok tt
      else Raise OverflowError
  | OStr _ | ONone => Raise TypeError
  end.

(** [while self.loop and self.connected: body].  The two flags are cleared
    by [disconnect], which runs in another thread: the schedule gives, for
    each test of the loop condition in turn, whether [disconnect] has been
    called by then, together with what the iteration reads from the outside.
    A schedule that runs out leaves the thread running. *)
Inductive loop_end (S : Type) : Type :=
| Running (s : S)
| Exited (s : S)
| Crashed (e : exn) (s : S).
Arguments Running {S} s.
Arguments Exited {S} s.
Arguments Crashed {S} e s.

Fixpoint while_polling {S I : Type} (body : I -> S -> S * result unit)
    (schedule : list (bool * I)) (s : S) : loop_end S :=
  match schedule with
  | [] => Running s
  | (stop_requested, input) :: rest =>
      if stop_requested then Exited s
      else match body input s with
           | (s', Ok _) => while_polling body rest s'
           | (s', Raise e) => Crashed e s'
           end
  end.

(** ** [CSVFileConnector] *)

Module CSVFileConnector.

(** A row of [csv.DictReader]: the cells by column name, in the order of
    the header; a cell that the line does not have is [None]. *)
Definition csv_row : Type := list (string * option string).

Definition interval (c : connector) : pyval :=
  default (PyInt 5) (cfg_interval (config c)).

Section WithEnvironment.

Variable utcnow_iso : nat -> string.
(** [float(s)] on a string: [None] when it raises [ValueError]. *)
Variable py_float : string -> option float.

(** The conversion loop shared by [_read_once] and [_read_loop]:
    [float(value)], and the string itself on [ValueError]; [float(None)]
    raises [TypeError], which is not caught. *)
Fixpoint convert_row (row : csv_row) (processed_row : reading)
    : result reading :=
  match row with
  | [] => Ok processed_row
  | (key, None) :: _ => Raise TypeError
  | (key, Some value) :: rest =>
      match py_float value with
      | Some x => convert_row rest (<[key := PyFloat x]> processed_row)
      | None => convert_row rest (<[key := PyStr value]> processed_row)
      end
  end.

Fixpoint _read_once_rows (rows : list csv_row) (c : connector) (w : world)
    (readings : list reading) : world * connector * result (list reading) :=
  match rows with
  | [] => (w, c, Ok readings)
  | row :: rest =>
      match convert_row row ∅ with
      | Raise e => (w, c, Raise e)
      | Ok processed_row =>
          match process_reading utcnow_iso c (DataDict processed_row) w with
          | (w, c, Raise e) => (w, c, Raise e)
          | (w, c, Ok r) => _read_once_rows rest c w (readings ++ [r])
          end
      end
  end.

(** [opened] is what [open(self.file_path)] and the reader give: the rows
    of the file, or the exception of [open]. *)
Definition _read_once (opened : result (list csv_row)) (c : connector)
    (w : world) : world * connector * result (list reading) :=
  match opened with
  | Raise e => (w, c, Raise e)
  | Ok rows => _read_once_rows rows c w []
  end.

Record loop_state : Type := {
  row_index : Z;
  conn : connector;
  env : world;
}.

(** One iteration of the [while] of [_read_loop]. *)
Definition loop_body (rows : list csv_row) (num_rows : Z) (_ : unit)
    (s : loop_state) : loop_state * result unit :=
  match py_index rows (row_index s) with
  | Raise e => (s, Raise e)
  | Ok row =>
      match convert_row row ∅ with
      | Raise e => (s, Raise e)
      | Ok processed_row =>
          match process_reading utcnow_iso (conn s) (DataDict processed_row)
                  (env s) with
          | (w, c, Raise e) =>
              ({| row_index := row_index s; conn := c; env := w |}, Raise e)
          | (w, c, Ok _) =>
              match py_mod (row_index s + 1) num_rows with
              | Raise e =>
                  ({| row_index := row_index s; conn := c; env := w |},
                   Raise e)
              | Ok i =>
                  ({| row_index := i; conn := c; env := w |},
                   py_sleep (interval c))
              end
          end
      end
  end.

Definition _read_loop (opened : result (list csv_row)) (c : connector)
    (w : world) (schedule : list (bool * unit)) : loop_end loop_state :=
  let s0 := {| row_index := 0; conn := c; env := w |} in
  match opened with
  | Raise e => Crashed e s0
  | Ok rows =>
      while_polling (loop_body rows (Z.of_nat (length rows))) schedule s0
  end.

End WithEnvironment.

End CSVFileConnector.

(** ** [APIConnector] *)

Module APIConnector.

(** What one [requests.get] followed by [raise_for_status] and [json()]
    gives: an exception (transport error, status outside 2xx, a body that is
    not JSON), a JSON array or any other JSON value. *)
Inductive http_result : Type :=
| HttpFailed (e : exn)
| JsonArray (items : list pydata)
| JsonValue (item : pydata).

Definition interval (c : connector) : pyval :=
  default (PyInt 60) (cfg_interval (config c)).

Section WithEnvironment.

Variable utcnow_iso : nat -> string.

Fixpoint process_items (items : list pydata) (c : connector) (w : world)
    (readings : list reading) : world * connector * result (list reading) :=
  match items with
  | [] => (w, c, Ok readings)
  | item :: rest =>
      match process_reading utcnow_iso c item w with
      | (w, c, Raise e) => (w, c, Raise e)
      | (w, c, Ok r) => process_items rest c w (readings ++ [r])
      end
  end.

(** [_read_once]: the whole body is inside [try]; the handler logs and
    raises the exception again. *)
Definition _read_once (response : http_result) (c : connector) (w : world)
    : world * connector * result (list reading) :=
  let '(w, c, r) :=
    match response with
    | HttpFailed e => (w, c, Raise e)
    | JsonArray items => process_items items c w []
    | JsonValue item =>
        match process_reading utcnow_iso c item w with
        | (w, c, Raise e) => (w, c, Raise e)
        | (w, c, Ok r) => (w, c, Ok [r])
        end
    end in
  match r with
  | Raise e =>
      (emit ERROR ("Failed to read data from API: " +:+ str_exn e) w, c,
       Raise e)
  | Ok readings => (w, c, Ok readings)
  end.

(** One iteration of [_read_loop]: [_read_once] inside [try], the sleep
    after it. *)
Definition loop_body (response : http_result) (s : connector * world)
    : (connector * world) * result unit :=
  let '(c, w) := s in
  match _read_once response c w with
  | (w, c, Raise e) =>
      ((c, emit ERROR ("Error in API read loop: " +:+ str_exn e) w),
       py_sleep (interval c))
  | (w, c, Ok _) => ((c, w), py_sleep (interval c))
  end.

Definition _read_loop (c : connector) (w : world)
    (schedule : list (bool * http_result)) : loop_end (connector * world) :=
  while_polling loop_body schedule (c, w).

End WithEnvironment.

End APIConnector.

(** ** [ModbusConnector] *)

Module ModbusConnector.

(** [sys.byteorder] of the host: [array.tobytes] writes each item in the
    machine's byte order. *)
Inductive byteorder : Type := LittleEndian | BigEndian.

Definition byte_of_Z (z : Z) : byte :=
  default Byte.x00 (Byte.of_N (Z.to_N (z mod 256))).

Definition Z_of_byte (b : byte) : Z := Z.of_N (Byte.to_N b).

(** [array.array('H', items).tobytes()]: unsigned 16-bit items, two bytes
    each; an item outside 0..65535 raises [OverflowError]. *)
Fixpoint array_H_tobytes (order : byteorder) (items : list Z)
    : result (list byte) :=
  match items with
  | [] => Ok []
  | x :: rest =>
      if (0 <=? x) && (x <=? 65535) then
        tl ← array_H_tobytes order rest;
        let lo := byte_of_Z (Z.land x 255) in
        let hi := byte_of_Z (Z.shiftr x 8) in
        Ok (match order with
            | LittleEndian => lo :: hi :: tl
            | BigEndian => hi :: lo :: tl
            end)
      else Raise OverflowError
  end.

(** The binary32 number with the given 32 bits, as the binary64 number of
    the same value (every binary32 number is one). *)
Definition binary32_to_float (w : Z) : float :=
  let s := Z.testbit w 31 in
  let e := Z.land (Z.shiftr w 23) 255 in
  let m := Z.land w (Z.ones 23) in
  if (e =? 255)%Z then
    if (m =? 0)%Z then (if s then neg_infinity else infinity) else nan
  else if (e =? 0)%Z then
    match m with
    | Z.pos p => SF2Prim (S754_finite s p (-149))
    | _ => if s then neg_zero else zero
    end
  else
    match (m + Z.shiftl 1 23)%Z with
    | Z.pos p => SF2Prim (S754_finite s p (e - 150))
    | _ => nan
    end.

(** [struct.unpack('>f', data)[0]]: four bytes, most significant first. *)
Definition struct_unpack_be_f (data : list byte) : result float :=
  match data with
  | [b0; b1; b2; b3] =>
      Ok (binary32_to_float
            (Z.lor (Z.shiftl (Z_of_byte b0) 24)
               (Z.lor (Z.shiftl (Z_of_byte b1) 16)
                  (Z.lor (Z.shiftl (Z_of_byte b2) 8) (Z_of_byte b3)))))
  | _ => Raise (OtherError "struct.error")
  end.

Definition _decode_ieee (order : byteorder) (register1 register2 : Z)
    : result float :=
  temp_bytes ← array_H_tobytes order [register1; register2];
  struct_unpack_be_f temp_bytes.

(** The result of a read of the pymodbus client: an error response
    ([isError()] holds) or the registers or bits that were read. *)
Inductive response (A : Type) : Type :=
| ErrorResponse (repr : string)
| Values (payload : list A).
Arguments ErrorResponse {A} repr.
Arguments Values {A} payload.

(** The client of the device, by (address, count, unit); a read can also
    raise (a lost connection). *)
Record ModbusTcpClient : Type := {
  read_holding_registers : Z -> Z -> Z -> result (response Z);
  read_input_registers : Z -> Z -> Z -> result (response Z);
  read_coils : Z -> Z -> Z -> result (response bool);
  read_discrete_inputs : Z -> Z -> Z -> result (response bool);
}.

Definition interval (c : connector) : pyval :=
  default (PyInt 5) (cfg_interval (config c)).

Definition unit_id (c : connector) : Z := default 1 (cfg_unit_id (config c)).

(** The branch [register_type in ['holding', 'input']] of [_read_once],
    before the scaling. *)
Definition decode_registers (order : byteorder) (data_type : string)
    (registers : list Z) : result pyval :=
  if bool_decide (data_type = "float") && (2 <=? Z.of_nat (length registers))
  then
    r0 ← py_index registers 0; r1 ← py_index registers 1;
    x ← _decode_ieee order r0 r1; Ok (PyFloat x)
  else if bool_decide (data_type = "int32")
          && (2 <=? Z.of_nat (length registers))
  then
    r0 ← py_index registers 0; r1 ← py_index registers 1;
    Ok (PyInt (Z.shiftl r0 16 + r1))
  else if bool_decide (data_type = "int16")
  then r0 ← py_index registers 0; Ok (PyInt r0)
  else r0 ← py_index registers 0; Ok (PyInt r0).

(** What one pass of the [for] of [_read_once] does with one item of the
    register map: [Skip] is a [continue] (with the record it logs), [Store] is
    [readings[name] = value]. *)
Inductive step : Type :=
| Skip (l : level) (msg : string)
| Store (value : pyval).

Definition read_register (order : byteorder) (dev : ModbusTcpClient)
    (unit : Z) (name : string) (cfg : register_config) : result step :=
  let register_type := default "holding" (cfg_type cfg) in
  let address := default 0 (cfg_address cfg) in
  let count := default 1 (cfg_count cfg) in
  let data_type := default "float" (cfg_data_type cfg) in
  let scaling := default (PyFloat 1) (cfg_scaling cfg) in
  let on_registers (r : response Z) : result step :=
    match r with
    | ErrorResponse repr =>
        Ok (Skip ERROR ("Error reading register " +:+ name +:+ ": " +:+ repr))
    | Values registers =>
        value ← decode_registers order data_type registers;
        value ← py_mul value scaling;
        Ok (Store value)
    end in
  let on_bits (r : response bool) : result step :=
    match r with
    | ErrorResponse repr =>
        Ok (Skip ERROR ("Error reading register " +:+ name +:+ ": " +:+ repr))
    | Values bits => b ← py_index bits 0; Ok (Store (PyBool b))
    end in
  if bool_decide (register_type = "holding")
  then r ← read_holding_registers dev address count unit; on_registers r
  else if bool_decide (register_type = "input")
  then r ← read_input_registers dev address count unit; on_registers r
  else if bool_decide (register_type = "coil")
  then r ← read_coils dev address count unit; on_bits r
  else if bool_decide (register_type = "discrete")
  then r ← read_discrete_inputs dev address count unit; on_bits r
  else Ok (Skip WARNING ("Unknown register type: " +:+ register_type)).

(** The conditions of the branches of that pass, for a register spec: the
    register types that the [if]/[elif] chain knows, and what the device
    answers to the read that the chain issues for the spec's register type:
    an error response ([result.isError()], [repr] being its [str]), a list
    of registers, or a list of bits. *)
Definition known_register_types : list string :=
  ["holding"; "input"; "coil"; "discrete"].

Definition answers_error (dev : ModbusTcpClient) (unit : Z)
    (cfg : register_config) (repr : string) : Prop :=
  let register_type := default "holding" (cfg_type cfg) in
  let address := default 0 (cfg_address cfg) in
  let count := default 1 (cfg_count cfg) in
  (register_type = "holding"
   /\ read_holding_registers dev address count unit
      = Ok (ErrorResponse repr))
  \/ (register_type = "input"
      /\ read_input_registers dev address count unit
         = Ok (ErrorResponse repr))
  \/ (register_type = "coil"
      /\ read_coils dev address count unit = Ok (ErrorResponse repr))
  \/ (register_type = "discrete"
      /\ read_discrete_inputs dev address count unit
         = Ok (ErrorResponse repr)).

Definition answers_registers (dev : ModbusTcpClient) (unit : Z)
    (cfg : register_config) (registers : list Z) : Prop :=
  let register_type := default "holding" (cfg_type cfg) in
  let address := default 0 (cfg_address cfg) in
  let count := default 1 (cfg_count cfg) in
  (register_type = "holding"
   /\ read_holding_registers dev address count unit = Ok (Values registers))
  \/ (register_type = "input"
      /\ read_input_registers dev address count unit
         = Ok (Values registers)).

Definition answers_bits (dev : ModbusTcpClient) (unit : Z)
    (cfg : register_config) (bits : list bool) : Prop :=
  let register_type := default "holding" (cfg_type cfg) in
  let address := default 0 (cfg_address cfg) in
  let count := default 1 (cfg_count cfg) in
  (register_type = "coil"
   /\ read_coils dev address count unit = Ok (Values bits))
  \/ (register_type = "discrete"
      /\ read_discrete_inputs dev address count unit = Ok (Values bits)).

(** The [for] loop of [_read_once] over [self.registers.items()]. *)
Fixpoint read_registers (order : byteorder) (dev : ModbusTcpClient)
    (unit : Z) (items : list (string * register_config))
    (readings : reading) (w : world) : world * result reading :=
  match items with
  | [] => (w, Ok readings)
  | (name, cfg) :: rest =>
      match read_register order dev unit name cfg with
      | Raise e => (w, Raise e)
      | Ok (Skip l msg) =>
          read_registers order dev unit rest readings (emit l msg w)
      | Ok (Store value) =>
          read_registers order dev unit rest (<[name := value]> readings) w
      end
  end.

Section WithEnvironment.

Variable utcnow_iso : nat -> string.
Variable order : byteorder.

Definition _read_once (dev : ModbusTcpClient) (c : connector) (w : world)
    : world * connector * result (list reading) :=
  match read_registers order dev (unit_id c) (cfg_registers (config c)) ∅ w
  with
  | (w, Raise e) => (w, c, Raise e)
  | (w, Ok readings) =>
      match process_reading utcnow_iso c (DataDict readings) w with
      | (w, c, Raise e) => (w, c, Raise e)
      | (w, c, Ok r) => (w, c, Ok [r])
      end
  end.

Definition loop_body (dev : ModbusTcpClient) (s : connector * world)
    : (connector * world) * result unit :=
  let '(c, w) := s in
  match _read_once dev c w with
  | (w, c, Raise e) =>
      ((c, emit ERROR ("Error in Modbus read loop: " +:+ str_exn e) w),
       py_sleep (interval c))
  | (w, c, Ok _) => ((c, w), py_sleep (interval c))
  end.

(** The device may answer differently at every iteration: the schedule
    carries its behaviour at each one. *)
Definition _read_loop (c : connector) (w : world)
    (schedule : list (bool * ModbusTcpClient))
    : loop_end (connector * world) :=
  while_polling loop_body schedule (c, w).

End WithEnvironment.

End ModbusConnector.

(** ** [OPCUAConnector] *)

Module OPCUAConnector.

Definition interval (c : connector) : pyval :=
  default (PyInt 5) (cfg_interval (config c)).

(** The [for] of [_read_once]: the body is inside [try], a node that cannot
    be resolved or read is logged and left out.  [node_value] is
    [client.get_node(node_id).get_value()]. *)
Fixpoint read_nodes (node_value : string -> result pyval)
    (nodes : list (string * string)) (readings : reading) (w : world)
    : world * reading :=
  match nodes with
  | [] => (w, readings)
  | (name, node_id) :: rest =>
      match node_value node_id with
      | Ok value => read_nodes node_value rest (<[name := value]> readings) w
      | Raise e =>
          read_nodes node_value rest readings
            (emit ERROR ("Error reading node " +:+ name +:+ " (" +:+ node_id
                         +:+ "): " +:+ str_exn e) w)
      end
  end.

Section WithEnvironment.

Variable utcnow_iso : nat -> string.

Definition _read_once (node_value : string -> result pyval) (c : connector)
    (w : world) : world * connector * result (list reading) :=
  let '(w, readings) := read_nodes node_value (cfg_nodes (config c)) ∅ w in
  match process_reading utcnow_iso c (DataDict readings) w with
  | (w, c, Raise e) => (w, c, Raise e)
  | (w, c, Ok r) => (w, c, Ok [r])
  end.

Definition loop_body (node_value : string -> result pyval)
    (s : connector * world) : (connector * world) * result unit :=
  let '(c, w) := s in
  match _read_once node_value c w with
  | (w, c, Raise e) =>
      ((c, emit ERROR ("Error in OPC UA read loop: " +:+ str_exn e) w),
       py_sleep (interval c))
  | (w, c, Ok _) => ((c, w), py_sleep (interval c))
  end.

Definition _read_loop (c : connector) (w : world)
    (schedule : list (bool * (string -> result pyval)))
    : loop_end (connector * world) :=
  while_polling loop_body schedule (c, w).

End WithEnvironment.

End OPCUAConnector.

(** ** Connecting and disconnecting *)

(** The state of a connector's polling thread at the time [disconnect]
    runs: it has already returned; or it returns the given number of
    milliseconds after the flags are cleared (it is asleep, or inside a
    read); or it does not return at all. *)
Inductive thread_status : Type :=
| Finished
| ExitsAfter (ms : Z)
| NeverExits.

(** What the handlers of [backend/main.py] find outside the process. *)
Record environment : Type := {
  path_exists : pyval -> bool;
  api_probe : pyval -> result unit;
  modbus_available : bool;
  opcua_available : bool;
  modbus_connect : pyval -> pyval -> result bool;
  opcua_connect : pyval -> result unit;
  client_close : connector -> result unit;
  thread_status_of : connector -> thread_status;
}.

(** [connect] of the four classes: the records logged, the object after the
    call and the value returned or the exception raised. *)
Definition connect (E : environment) (c : connector)
    : list log_record * connector * result bool :=
  match src c with
  | CSVFile file_path =>
      if path_exists E file_path then
        ([(INFO, "Connected to CSV file: " +:+ py_str file_path)],
         set_connected true c, Ok true)
      else
        ([], c,
         Raise (FileNotFoundError ("CSV file not found: "
                                   +:+ py_str file_path)))
  | API api_url =>
      match api_probe E api_url with
      | Ok _ =>
          ([(INFO, "Connected to API: " +:+ py_str api_url)],
           set_connected true c, Ok true)
      | Raise e =>
          ([(ERROR, "Failed to connect to API: " +:+ str_exn e)], c,
           Raise (ConnectionError ("Failed to connect to API: "
                                   +:+ str_exn e)))
      end
  | Modbus host port =>
      let c := set_client true c in
      let where_ := py_str host +:+ ":" +:+ py_str port in
      match modbus_connect E host port with
      | Ok true =>
          ([(INFO, "Connected to Modbus device: " +:+ where_)],
           set_connected true c, Ok true)
      | Ok false =>
          let e := ConnectionError ("Failed to connect to Modbus device: "
                                    +:+ where_) in
          ([(ERROR, "Failed to connect to Modbus device: " +:+ where_);
            (ERROR, "Failed to connect to Modbus device: " +:+ str_exn e)],
           c,
           Raise (ConnectionError ("Failed to connect to Modbus device: "
                                   +:+ str_exn e)))
      | Raise e =>
          ([(ERROR, "Failed to connect to Modbus device: " +:+ str_exn e)],
           c,
           Raise (ConnectionError ("Failed to connect to Modbus device: "
                                   +:+ str_exn e)))
      end
  | OPCUA server_url =>
      let c := set_client true c in
      match opcua_connect E server_url with
      | Ok _ =>
          ([(INFO, "Connected to OPC UA server: " +:+ py_str server_url)],
           set_connected true c, Ok true)
      | Raise e =>
          ([(ERROR, "Failed to connect to OPC UA server: " +:+ str_exn e)],
           c,
           Raise (ConnectionError ("Failed to connect to OPC UA server: "
                                   +:+ str_exn e)))
      end
  end.

(** [read_data(loop=True)], the same in the four classes. *)
Definition read_data_loop (c : connector) : connector * result unit :=
  if connected c then (set_thread true (set_loop true c), Ok tt)
  else
    (c, Raise (ConnectionError
                 ("Not connected to "
                  +:+ match src c with
                      | CSVFile _ => "CSV file"
                      | API _ => "API"
                      | Modbus _ _ => "Modbus device"
                      | OPCUA _ => "OPC UA server"
                      end))).

(** [thread.join(timeout=2)] of a live thread: the time it blocks, in
    milliseconds, and whether the thread is still alive when it returns. *)
Definition join_timeout_ms : Z := 2000.

Definition join (st : thread_status) : Z * bool :=
  match st with
  | Finished => (0, false)
  | ExitsAfter ms =>
      if ms <=? join_timeout_ms then (Z.max 0 ms, false)
      else (join_timeout_ms, true)
  | NeverExits => (join_timeout_ms, true)
  end.

Definition is_alive (st : thread_status) : bool :=
  match st with Finished => false | _ => true end.

(** What a call of [disconnect] does besides changing the object. *)
Record disconnected : Type := {
  after : connector;
  waited_ms : Z;
  thread_left_alive : bool;
  records : list log_record;
  returned : result bool;
}.

Definition disconnect_message (s : source) : string :=
  match s with
  | CSVFile file_path => "Disconnected from CSV file: " +:+ py_str file_path
  | API api_url => "Disconnected from API: " +:+ py_str api_url
  | Modbus host port =>
      "Disconnected from Modbus device: " +:+ py_str host +:+ ":"
      +:+ py_str port
  | OPCUA server_url =>
      "Disconnected from OPC UA server: " +:+ py_str server_url
  end.

Definition has_client (s : source) : bool :=
  match s with Modbus _ _ | OPCUA _ => true | _ => false end.

(** [if self.thread and self.thread.is_alive(): self.thread.join(timeout=2)]:
    the time spent waiting and whether the thread is alive afterwards. *)
Definition wait_for_thread (has_thread : bool) (st : thread_status)
    : Z * bool :=
  if has_thread && is_alive st then join st else (0, false).

(** [disconnect] of the four classes.  The Modbus and OPC-UA classes first
    close their client, when they have one; the rest is the same: clear the
    two flags, join the thread for at most two seconds when there is one and
    it is alive, log, return [True]. *)
Definition disconnect (E : environment) (c : connector) : disconnected :=
  match (if has_client (src c) && client c then client_close E c
         else Ok tt) with
  | Raise e =>
      {| after := c; waited_ms := 0;
         thread_left_alive := thread c && is_alive (thread_status_of E c);
         records := []; returned := Raise e |}
  | Ok _ =>
      let c' := set_loop false (set_connected false c) in
      let waited := wait_for_thread (thread c) (thread_status_of E c) in
      {| after := c'; waited_ms := waited.1; thread_left_alive := waited.2;
         records := [(INFO, disconnect_message (src c))];
         returned := Ok true |}
  end.

(** [create_connector]: the positional arguments are bound by the class's
    constructor, which raises [TypeError] on a wrong number of them. *)
Definition create_connector (E : environment) (eid connector_type : string)
    (args : list pyval) (cfg : connector_config) : result connector :=
  if bool_decide (connector_type = "csv") then
    match args with
    | [file_path] => Ok (new_connector eid (CSVFile file_path) cfg)
    | _ => Raise TypeError
    end
  else if bool_decide (connector_type = "api") then
    match args with
    | [api_url] => Ok (new_connector eid (API api_url) cfg)
    | _ => Raise TypeError
    end
  else if bool_decide (connector_type = "modbus") && modbus_available E then
    match args with
    | [host] => Ok (new_connector eid (Modbus host (PyInt 502)) cfg)
    | [host; port] => Ok (new_connector eid (Modbus host port) cfg)
    | _ => Raise TypeError
    end
  else if bool_decide (connector_type = "opcua") && opcua_available E then
    match args with
    | [server_url] => Ok (new_connector eid (OPCUA server_url) cfg)
    | _ => Raise TypeError
    end
  else Raise (ValueError ("Unknown connector type: " +:+ connector_type)).

(** ** [backend/main.py]: the registry of active connectors *)

Module Supervisor.

(** The request body of [setup_connector]. *)
Record ConnectorConfig : Type := {
  connector_type : string;
  config_equipment_id : string;
  config_options : connector_config;
  connection_params : list (string * pyval);
}.

(** [active_connectors] maps an equipment id to a connector object.  The
    objects live in a store, because the polling thread of a connector
    keeps its object after the registry has dropped it; the registry holds
    positions in the store.  [joins] records, for every [disconnect] the
    handlers have run, the position of the object, the time spent in
    [join] and whether the thread was left alive. *)
Record state : Type := {
  store : list connector;
  active_connectors : gmap string nat;
  logged : list log_record;
  joins : list (nat * Z * bool);
}.

Definition initial : state :=
  {| store := []; active_connectors := ∅; logged := []; joins := [] |}.

Definition response : Type := list (string * string).

Definition log_error (msg : string) (s : state) : state :=
  {| store := store s; active_connectors := active_connectors s;
     logged := logged s ++ [(ERROR, msg)]; joins := joins s |}.

Section Handlers.

Variable E : environment.
(** The callback that [setup_connector] defines and registers. *)
Variable data_callback : callback_t.

(** [stop_connector].  The second lookup, of the object in the store, has
    no counterpart in the source, where the registry holds the object
    itself; it succeeds in every well-formed state (see [well_formed]
    below, which the handlers keep). *)
Definition stop_connector (equipment_id : string) (s : state)
    : state * result response :=
  match active_connectors s !! equipment_id with
  | None =>
      (s, Raise (HTTPException 404 ("No active connector for equipment "
                                    +:+ equipment_id)))
  | Some ref =>
      match store s !! ref with
      | None => (s, Raise (HTTPException 500 "store"))
      | Some c =>
          let d := disconnect E c in
          let s1 :=
            {| store := <[ref := after d]> (store s);
               active_connectors := active_connectors s;
               logged := logged s ++ records d;
               joins := joins s ++ [(ref, waited_ms d, thread_left_alive d)]
            |} in
          match returned d with
          | Raise e =>
              (log_error ("Error stopping connector: " +:+ str_exn e) s1,
               Raise (HTTPException 500 (str_exn e)))
          | Ok _ =>
              ({| store := store s1;
                  active_connectors := delete equipment_id
                                         (active_connectors s1);
                  logged := logged s1; joins := joins s1 |},
               Ok [("message", "Connector stopped successfully");
                   ("equipment_id", equipment_id)])
          end
      end
  end.

(** The body of the [try] of [setup_connector], after the old connector
    has been stopped. *)
Definition start_connector (cfg : ConnectorConfig) (s : state)
    : state * result response :=
  let eid := config_equipment_id cfg in
  match create_connector E eid (connector_type cfg)
          (map snd (connection_params cfg)) (config_options cfg) with
  | Raise e => (s, Raise e)
  | Ok c =>
      let ref := length (store s) in
      let c := set_callback data_callback c in
      let '(recs, c, r) := connect E c in
      let s :=
        {| store := store s ++ [c]; active_connectors := active_connectors s;
           logged := logged s ++ recs; joins := joins s |} in
      match r with
      | Raise e => (s, Raise e)
      | Ok _ =>
          match read_data_loop c with
          | (c, Raise e) => (s, Raise e)
          | (c, Ok _) =>
              ({| store := <[ref := c]> (store s);
                  active_connectors := <[eid := ref]> (active_connectors s);
                  logged := logged s; joins := joins s |},
               Ok [("message", "Connector set up successfully");
                   ("equipment_id", eid);
                   ("connector_type", connector_type cfg);
                   ("status", "running")])
          end
      end
  end.

Definition setup_connector (cfg : ConnectorConfig) (s : state)
    : state * result response :=
  let eid := config_equipment_id cfg in
  let '(s, r) :=
    match active_connectors s !! eid with
    | Some _ =>
        match stop_connector eid s with
        | (s, Raise e) => (s, Raise e)
        | (s, Ok _) => start_connector cfg s
        end
    | None => start_connector cfg s
    end in
  match r with
  | Raise e =>
      (log_error ("Error setting up connector: " +:+ str_exn e) s,
       Raise (HTTPException 500 (str_exn e)))
  | Ok resp => (s, Ok resp)
  end.

End Handlers.

(** [list_connectors]: one row per item of the registry, with the class
    name of the object and "running" or "stopped" after its [connected]
    flag.  (The rows come in the order of [map_to_list], not in insertion
    order.) *)
Definition connector_row (s : state) (item : string * nat)
    : option (string * string * string) :=
  c ← store s !! item.2;
  Some (item.1, class_name (src c),
        if connected c then "running" else "stopped").

Definition list_connectors (s : state) : list (string * string * string) :=
  omap (connector_row s) (map_to_list (active_connectors s)).

(** Every position that the registry holds is a position of the store. *)
Definition well_formed (s : state) : Prop :=
  forall (equipment_id : string) (ref : nat),
    active_connectors s !! equipment_id = Some ref ->
    (ref < length (store s))%nat.


End Supervisor.

(** ** [backend/app/main.py]: [run_prediction] *)

Module Prediction.

Record prediction : Type := {
  failure_probability : float;
  remaining_useful_life_days : Z;
  recommended_action : string;
  confidence : float;
}.

Record prediction_response : Type := {
  resp_equipment_id : string;
  resp_prediction : prediction;
  resp_note : option string;
}.

Definition action_for (failure_probability : float) : string :=
  if PrimFloat.ltb 0.6 failure_probability then "maintenance" else "monitor".

(** The branch taken when [./models/predictive_model.pkl] does not exist.
    [readings] is a [Dict[str, float]]. *)
Definition rule_based (equipment_id : string) (readings : gmap string float)
    : result prediction_response :=
  let temperature := default 70%float (readings !! "temperature") in
  let vibration := default 3%float (readings !! "vibration") in
  let failure_probability := 0.0%float in
  let failure_probability :=
    if PrimFloat.ltb 85 temperature
    then (failure_probability + 0.4)%float else failure_probability in
  let failure_probability :=
    if PrimFloat.ltb 5 vibration
    then (failure_probability + 0.4)%float else failure_probability in
  remaining_days ← int_of_float (30 * (1 - failure_probability))%float;
  Ok {| resp_equipment_id := equipment_id;
        resp_prediction :=
          {| failure_probability := failure_probability;
             remaining_useful_life_days := remaining_days;
             recommended_action := action_for failure_probability;
             confidence := 0.7 |};
        resp_note :=
          Some "Using rule-based prediction (no trained model found)" |}.

(** The branch that uses the trained model: [predict_proba] is
    [joblib.load] followed by [model.predict_proba([features])[0][1]]; the
    whole branch is inside [try]. *)
Definition model_based (predict_proba : list float -> result float)
    (equipment_id : string) (readings : gmap string float)
    : result prediction_response :=
  let features :=
    [default 70%float (readings !! "temperature");
     default 3%float (readings !! "vibration");
     default 100%float (readings !! "pressure");
     default 90%float (readings !! "oil_level")] in
  match (failure_probability ← predict_proba features;
         remaining_days ← int_of_float (30 * (1 - failure_probability))%float;
         Ok {| resp_equipment_id := equipment_id;
               resp_prediction :=
                 {| failure_probability := failure_probability;
                    remaining_useful_life_days := remaining_days;
                    recommended_action := action_for failure_probability;
                    confidence := 0.85 |};
               resp_note := None |}) with
  | Ok r => Ok r
  | Raise e => Raise (HTTPException 500 ("Prediction error: " +:+ str_exn e))
  end.

(** [run_prediction]: [equipment_db] is the set of known equipment ids,
    [model] is [None] when the model file does not exist. *)
Definition run_prediction (equipment_db : gset string)
    (model : option (list float -> result float))
    (equipment_id : string) (readings : gmap string float)
    : result prediction_response :=
  if bool_decide (equipment_id ∈ equipment_db) then
    match model with
    | None => rule_based equipment_id readings
    | Some predict_proba => model_based predict_proba equipment_id readings
    end
  else Raise (HTTPException 404 "Equipment not found").

End Prediction.

(** ** [backend/models/data_processor.py]: [_engineer_features] *)

Module DataProcessor.

(** A data frame, as far as [_engineer_features] reads and writes it: the
    number of rows, the [timestamp] column when there is one (nanoseconds
    since the epoch, as pandas stores a datetime) and the numerical columns
    in their order, each with [nrows] values; a missing value is a NaN.
    The columns are of dtype [float64], as pandas builds them from the
    floats of a reading or from a column with a missing value; a column of
    dtype [int64], whose products wrap at [2^63], is outside this model. *)
Record DataFrame : Type := {
  nrows : nat;
  timestamp : option (list Z);
  columns : list (string * list float);
}.

Definition has_column (df : DataFrame) (col : string) : bool :=
  bool_decide (col ∈ (columns df).*1)
  || (bool_decide (col = "timestamp") && bool_decide (is_Some (timestamp df))).

Fixpoint lookup_column (col : string) (cols : list (string * list float))
    : option (list float) :=
  match cols with
  | [] => None
  | (k, v) :: rest =>
      if bool_decide (k = col) then Some v else lookup_column col rest
  end.

(** [df[col]], for a column that the frame has. *)
Definition get_column (df : DataFrame) (col : string) : list float :=
  default [] (lookup_column col (columns df)).

Fixpoint assign (col : string) (values : list float)
    (cols : list (string * list float)) : list (string * list float) :=
  match cols with
  | [] => [(col, values)]
  | (k, v) :: rest =>
      if bool_decide (k = col) then (k, values) :: rest
      else (k, v) :: assign col values rest
  end.

(** [df[col] = values] *)
Definition set_column (col : string) (values : list float) (df : DataFrame)
    : DataFrame :=
  {| nrows := nrows df; timestamp := timestamp df;
     columns := assign col values (columns df) |}.

(** *** [Series.rolling(window, min_periods)]

    The window at row [i] is the rows [i - window + 1 .. i] that exist; its
    observations are the values that are finite (pandas' rolling treats a
    NaN, [+inf] and [-inf] alike as missing); a statistic is NaN when there
    are fewer observations than [min_periods]; the standard deviation is
    the sample one ([ddof = 1]), NaN on fewer than two observations.

    [stat_mean] and [stat_std] follow this documented meaning, summing the
    observations of each window afresh; pandas updates a running sum and a
    running sum of squared differences from one window to the next, which
    gives the same number wherever all the intermediate sums are exact (as
    for the small integers and halves used below) and may otherwise differ
    from it in the last bits. *)
Definition window_at (window : nat) (xs : list float) (i : nat) : list float :=
  drop (S i - window) (take (S i) xs).

Definition observations (xs : list float) : list float :=
  List.filter
    (fun x => negb (PrimFloat.is_nan x || PrimFloat.is_infinity x)) xs.

Definition fsum (xs : list float) : float :=
  fold_left PrimFloat.add xs 0%float.

Definition count (xs : list float) : float :=
  SF2Prim (binary_normalize prec emax (Z.of_nat (length xs)) 0 false).

Definition mean (obs : list float) : float := (fsum obs / count obs)%float.

Definition stat_mean (min_periods : nat) (w : list float) : float :=
  let obs := observations w in
  if (length obs <? min_periods)%nat then nan else mean obs.

Definition stat_std (min_periods : nat) (w : list float) : float :=
  let obs := observations w in
  if (length obs <? min_periods)%nat || (length obs <=? 1)%nat then nan
  else
    let m := mean obs in
    let ss := fsum (map (fun x => ((x - m) * (x - m))%float) obs) in
    PrimFloat.sqrt (ss / (count obs - 1))%float.

Definition fmin (a b : float) : float := if PrimFloat.ltb b a then b else a.
Definition fmax (a b : float) : float := if PrimFloat.ltb a b then b else a.

Definition stat_fold (f : float -> float -> float) (min_periods : nat)
    (w : list float) : float :=
  match observations w with
  | [] => nan
  | x :: rest =>
      if (length (x :: rest) <? min_periods)%nat then nan
      else fold_left f rest x
  end.

Definition rolling (stat : list float -> float) (window : nat)
    (xs : list float) : list float :=
  map (fun i => stat (window_at window xs i)) (seq 0 (length xs)).

(** [Series.fillna(value)] *)
Definition fillna (value : float) (xs : list float) : list float :=
  map (fun x => if PrimFloat.is_nan x then value else x) xs.

(** [Series.diff()]: NaN in the first row. *)
Definition diff (xs : list float) : list float :=
  match xs with
  | [] => []
  | _ :: tl => nan :: zip_with (fun cur prev => (cur - prev)%float) tl xs
  end.

(** [df[time].diff().dt.total_seconds()]: NaN in the first row. *)
Definition diff_seconds (ts : list Z) : list float :=
  match ts with
  | [] => []
  | _ :: tl =>
      nan :: zip_with
               (fun cur prev =>
                  (SF2Prim (binary_normalize prec emax (cur - prev) 0 false)
                   / 1e9)%float) tl ts
  end.

(** The body of [for col in self.numerical_columns] in the first half of
    [_engineer_features]. *)
Definition add_rolling_features (df : DataFrame) (col : string) : DataFrame :=
  if has_column df col then
    let df :=
      if (5 <=? nrows df)%nat then
        let xs := get_column df col in
        let df := set_column (col +:+ "_rolling_mean")
                    (rolling (stat_mean 1) 5 xs) df in
        let df := set_column (col +:+ "_rolling_std")
                    (fillna 0 (rolling (stat_std 1) 5 (get_column df col)))
                    df in
        let df := set_column (col +:+ "_rolling_min")
                    (rolling (stat_fold fmin 1) 5 (get_column df col)) df in
        set_column (col +:+ "_rolling_max")
          (rolling (stat_fold fmax 1) 5 (get_column df col)) df
      else df in
    match timestamp df with
    | Some ts =>
        if (1 <? nrows df)%nat then
          let rate := zip_with PrimFloat.div (diff (get_column df col))
                        (diff_seconds ts) in
          let df := set_column (col +:+ "_rate") rate df in
          set_column (col +:+ "_rate")
            (fillna 0 (get_column df (col +:+ "_rate"))) df
        else df
    | None => df
    end
  else df.

(** [Series.replace(0, 1e-10)] *)
Definition replace_zero (xs : list float) : list float :=
  map (fun x => if PrimFloat.eqb x 0 then 1e-10%float else x) xs.

Definition add_interaction (df : DataFrame) (col1 col2 : string)
    : DataFrame :=
  let df := set_column (col1 +:+ "_" +:+ col2 +:+ "_product")
              (zip_with PrimFloat.mul (get_column df col1)
                 (get_column df col2)) df in
  set_column (col1 +:+ "_" +:+ col2 +:+ "_ratio")
    (zip_with PrimFloat.div (get_column df col1)
       (replace_zero (get_column df col2))) df.

(** The pairs [(i, j)] of the two nested [range] loops, in their order. *)
Definition index_pairs (n : nat) : list (nat * nat) :=
  i ← seq 0 n; j ← seq (S i) (n - S i); [(i, j)].





(** [numerical_columns] holds the names of columns of numbers, as
    [select_dtypes(include=["number"])] gives them: the [timestamp] column,
    which [process] has turned into datetimes, is not one of them, and the
    arithmetic of pandas on datetimes is not modelled. *)

Definition _engineer_features (numerical_columns : option (list string))
    (df : DataFrame) : DataFrame :=
  let cols := default [] numerical_columns in
  let df :=
    if (1 <? nrows df)%nat && negb (bool_decide (cols = []))
    then fold_left add_rolling_features cols df
    else df in
  if (2 <=? length cols)%nat then
    let numerical_cols := List.filter (has_column df) cols in
    if (2 <=? length numerical_cols)%nat then
      fold_left
        (fun df ij =>
           match numerical_cols !! ij.1, numerical_cols !! ij.2 with
           | Some col1, Some col2 => add_interaction df col1 col2
           | _, _ => df
           end)
        (index_pairs (Nat.min (length numerical_cols) 5)) df
    else df
  else df.


End DataProcessor.

(** ** Sample inputs *)

Module Sample.

Definition utcnow_iso (n : nat) : string := "2024-05-01T12:00:00".

(** [float(s)] on the cells of the sample files. *)
Definition py_float (s : string) : option float :=
  if bool_decide (s = "71.5") then Some 71.5%float else None.

Definition no_options : connector_config :=
  {| cfg_interval := None; cfg_unit_id := None; cfg_registers := [];
     cfg_nodes := [] |}.

(** A file with a header and one data row, and one with the header only. *)
Definition one_row_file : list CSVFileConnector.csv_row :=
  [[("temperature", Some "71.5")]].

Definition header_only_file : list CSVFileConnector.csv_row := [].

(** A callback whose sink fails on every reading. *)
Definition failing_sink : callback_t :=
  fun _ => Raise (OtherError "OperationalError").

(** A connector as [setup_connector] leaves it: callback set, connected,
    polling. *)
Definition polling (s : source) (cfg : connector_config) (cb : callback_t)
    : connector :=
  set_thread true
    (set_loop true
       (set_connected true (set_callback cb (new_connector "PUMP001" s cfg)))).

Definition csv_connector (cb : callback_t) : connector :=
  polling (CSVFile (PyStr "pump001.csv")) no_options cb.

Definition api_connector (cb : callback_t) : connector :=
  polling (API (PyStr "http://plant/api/pump001")) no_options cb.

Definition json_sample : pydata :=
  DataDict (<["temperature" := PyFloat 71.5]> ∅).


End Sample.

(** Sample Modbus device and register maps. *)
Module SampleModbus.

(** A device with five holding registers; a read outside them, or of no
    register at all, is answered with an exception response. *)
Definition memory : list Z := [0x447A; 0x0000; 7; 0x0001; 0x86A0].

Definition read_words (address count unit : Z)
    : result (ModbusConnector.response Z) :=
  if (1 <=? count) && (0 <=? address)
     && (address + count <=? Z.of_nat (length memory))
  then Ok (ModbusConnector.Values
             (take (Z.to_nat count) (drop (Z.to_nat address) memory)))
  else Ok (ModbusConnector.ErrorResponse "Exception Response(131, 3)").

Definition read_bits (address count unit : Z)
    : result (ModbusConnector.response bool) :=
  Ok (ModbusConnector.Values [true]).

Definition device : ModbusConnector.ModbusTcpClient :=
  {| ModbusConnector.read_holding_registers := read_words;
     ModbusConnector.read_input_registers := read_words;
     ModbusConnector.read_coils := read_bits;
     ModbusConnector.read_discrete_inputs := read_bits |}.

Definition spec (type : string) (address count : Z) (data_type : string)
    (scaling : pyval) : register_config :=
  {| cfg_type := Some type; cfg_address := Some address;
     cfg_count := Some count; cfg_data_type := Some data_type;
     cfg_scaling := Some scaling |}.

(** Well formed: a float over two registers. *)
Definition temperature : register_config :=
  spec "holding" 0 2 "float" (PyFloat 1).
(** A float over one register only. *)
Definition pressure : register_config :=
  spec "holding" 2 1 "float" (PyFloat 1).
(** A register type that does not exist. *)
Definition flow : register_config :=
  spec "holdng" 3 2 "int32" (PyFloat 1).
(** A scaling that is a string. *)
Definition level : register_config :=
  spec "holding" 3 2 "float" (PyStr "0.1").
(** An address that the device does not have. *)
Definition speed : register_config :=
  spec "input" 40 1 "int16" (PyFloat 1).
(** A count of 0, which the device refuses. *)
Definition idle : register_config :=
  spec "holding" 0 0 "float" (PyFloat 1).
(** A coil. *)
Definition valve : register_config :=
  spec "coil" 0 1 "bool" (PyFloat 1).

Definition connector_for (registers : list (string * register_config))
    : connector :=
  Sample.polling (Modbus (PyStr "10.0.0.7") (PyInt 502))
    {| cfg_interval := None; cfg_unit_id := None; cfg_registers := registers;
       cfg_nodes := [] |}
    (fun _ => Ok tt).

End SampleModbus.

(** Sample inputs of the prediction endpoint and of the data processor. *)
Module SampleData.

Definition hot_and_shaking : gmap string float :=
  <["temperature" := 90%float]> (<["vibration" := 6%float]> ∅).






End SampleData.

(** Sample requests to the registry.  Every source can be reached; the
    thread of a CSV connector does not return within the two seconds of the
    join (it is asleep for its interval), the others return in time. *)
Module SampleSupervisor.

Definition env : environment :=
  {| path_exists := fun _ => true;
     api_probe := fun _ => Ok tt;
     modbus_available := true;
     opcua_available := true;
     modbus_connect := fun _ _ => Ok true;
     opcua_connect := fun _ => Ok tt;
     client_close := fun _ => Ok tt;
     thread_status_of :=
       fun c => match src c with
                | CSVFile _ => NeverExits
                | _ => ExitsAfter 100
                end |}.

Definition sink : callback_t := fun _ => Ok tt.

Definition csv_setup : Supervisor.ConnectorConfig :=
  {| Supervisor.connector_type := "csv";
     Supervisor.config_equipment_id := "PUMP001";
     Supervisor.config_options := Sample.no_options;
     Supervisor.connection_params := [("file_path", PyStr "pump001.csv")] |}.


(** The registry after the CSV connector of PUMP001 has been set up. *)
Definition with_csv : Supervisor.state :=
  (Supervisor.setup_connector env sink csv_setup Supervisor.initial).1.

End SampleSupervisor.

(** * Properties *)

(** ** The reading built by [process_reading] *)

Lemma build_reading_lookup_dict (c : connector) (ts : string) (d : reading)
    (k : string) :
  build_reading c ts (DataDict d) !! k =
    match d !! k with
    | Some v => Some v
    | None =>
        if bool_decide (k = "timestamp") then Some (PyStr ts)
        else if bool_decide (k = "equipment_id")
        then Some (PyStr (equipment_id c)) else None
    end.
Proof.
  unfold build_reading.
  destruct (d !! k) as [v|] eqn:Hd.
  - by apply lookup_union_Some_l.
  - rewrite lookup_union_r by done.
    rewrite !lookup_insert, lookup_empty.
    repeat case_decide; repeat case_bool_decide; congruence.
Qed.

(** C9.  For every connector and every dict [d], [process_reading] builds a
    reading that has the keys [equipment_id] and [timestamp], stores it as
    [last_reading] and hands it to the callback when there is one.  Every key
    of [d] keeps its value from [d]: when [d] has a key [equipment_id] or
    [timestamp], its value replaces the connector's own id or the
    acquisition time. *)
Theorem process_reading_keeps_keys_data_overrides
    (utcnow_iso : nat -> string) (c : connector) (d : reading) (w : world) :
  let emitted := build_reading c (utcnow_iso (clock w)) (DataDict d) in
  let '(w', c', r) := process_reading utcnow_iso c (DataDict d) w in
  last_reading c' = Some emitted
  /\ match callback c with
     | Some cb =>
         delivered w' = (delivered w ++ [emitted])%list
         /\ r = match cb emitted with Ok _ => Ok emitted | Raise e => Raise e end
     | None => delivered w' = delivered w /\ r = Ok emitted
     end
  /\ emitted !! "equipment_id"
     = Some (default (PyStr (equipment_id c)) (d !! "equipment_id"))
  /\ emitted !! "timestamp"
     = Some (default (PyStr (utcnow_iso (clock w))) (d !! "timestamp"))
  /\ (forall k v, d !! k = Some v -> emitted !! k = Some v).
Proof.
  intros emitted. unfold process_reading. simpl.
  destruct (callback c) as [cb|] eqn:Hcb; simpl;
    (split; [done|]); (split; [done|]);
    subst emitted; rewrite !build_reading_lookup_dict.
  all: repeat split.
  all: try (destruct (d !! _); done).
  all: intros k v Hk; by rewrite build_reading_lookup_dict, Hk.
Qed.

(** ** The replay loop of [CSVFileConnector] *)

Lemma py_index_in_bounds {A} (rows : list A) (i : Z) :
  in_bounds rows i ->
  exists row, py_index rows i = Ok row /\ rows !! Z.to_nat i = Some row.
Proof.
  intros [Hlo Hhi]. unfold py_index.
  destruct (i <? 0) eqn:Hneg; [lia|].
  replace ((0 <=? i) && (i <? Z.of_nat (length rows))) with true
    by (symmetry; apply andb_true_iff; split; lia).
  destruct (rows !! Z.to_nat i) as [row|] eqn:Hrow; [eauto|].
  apply lookup_ge_None in Hrow. lia.
Qed.

Lemma py_mod_in_bounds {A} (rows : list A) (i : Z) :
  in_bounds rows i ->
  py_mod (i + 1) (Z.of_nat (length rows))
  = Ok ((i + 1) mod Z.of_nat (length rows))
  /\ in_bounds rows ((i + 1) mod Z.of_nat (length rows)).
Proof.
  intros [Hlo Hhi]. unfold py_mod, in_bounds.
  destruct (Z.of_nat (length rows) =? 0) eqn:Hz; [lia|].
  split; [done|]. apply Z.mod_pos_bound. lia.
Qed.

Lemma csv_loop_body_in_bounds (utcnow_iso : nat -> string)
    (py_float : string -> option float)
    (rows : list CSVFileConnector.csv_row) (u : unit)
    (s : CSVFileConnector.loop_state) :
  in_bounds rows (CSVFileConnector.row_index s) ->
  in_bounds rows
    (CSVFileConnector.row_index
       (CSVFileConnector.loop_body utcnow_iso py_float rows
          (Z.of_nat (length rows)) u s).1).
Proof.
  intros Hin. unfold CSVFileConnector.loop_body.
  destruct (py_index_in_bounds rows _ Hin) as (row & -> & _).
  destruct (CSVFileConnector.convert_row py_float row ∅) as [processed|e];
    [|done].
  destruct (process_reading _ _ _ _) as [[w c] [r|e]]; [|done].
  destruct (py_mod_in_bounds rows _ Hin) as [-> Hnext]. done.
Qed.

(** A property of the loop state that every iteration keeps holds wherever
    the loop stands or ends. *)
Lemma while_polling_invariant {S I} (P : S -> Prop)
    (body : I -> S -> S * result unit) :
  (forall i s, P s -> P (body i s).1) ->
  forall schedule s, P s ->
    match while_polling body schedule s with
    | Running s' | Exited s' | Crashed _ s' => P s'
    end.
Proof.
  intros Hbody schedule.
  induction schedule as [|[stop i] rest IH]; intros s Hs; [done|].
  simpl. destruct stop; [done|].
  specialize (Hbody i s Hs).
  destruct (body i s) as [s' [[]|e]]; simpl in *; [by apply IH|done].
Qed.

(** C10.  The replay loop of [CSVFileConnector] over a file with at least
    one row: wherever the loop stands after any number of iterations (still
    running, exited or stopped by an exception), its row index is within the
    rows, so that [rows[row_index]] succeeds and [(row_index + 1) % num_rows]
    is defined.  Over a file with no row, the first iteration raises
    [IndexError] at [rows[0]] and the thread ends; the modulo by [num_rows]
    would raise [ZeroDivisionError]. *)
Theorem csv_replay_index_in_bounds_iff_rows
    (utcnow_iso : nat -> string) (py_float : string -> option float)
    (c : connector) (w : world) :
  (forall (row : CSVFileConnector.csv_row)
          (rows : list CSVFileConnector.csv_row)
          (schedule : list (bool * unit)),
     let file := row :: rows in
     match CSVFileConnector._read_loop utcnow_iso py_float (Ok file) c w
             schedule with
     | Running s | Exited s | Crashed _ s =>
         let i := CSVFileConnector.row_index s in
         in_bounds file i
         /\ is_ok (py_index file i) = true
         /\ py_mod (i + 1) (Z.of_nat (length file))
            = Ok ((i + 1) mod Z.of_nat (length file))
     end)
  /\ (forall schedule : list (bool * unit),
        CSVFileConnector._read_loop utcnow_iso py_float (Ok []) c w
          ((false, tt) :: schedule)
        = Crashed IndexError
            {| CSVFileConnector.row_index := 0; CSVFileConnector.conn := c;
               CSVFileConnector.env := w |})
  /\ py_mod (0 + 1) (Z.of_nat (length (@nil CSVFileConnector.csv_row)))
     = Raise ZeroDivisionError.
Proof.
  split; [|done].
  intros row rows schedule file. unfold CSVFileConnector._read_loop.
  pose proof (while_polling_invariant
                (fun s => in_bounds file (CSVFileConnector.row_index s))
                (CSVFileConnector.loop_body utcnow_iso py_float file
                   (Z.of_nat (length file)))
                (csv_loop_body_in_bounds utcnow_iso py_float file)
                schedule
                {| CSVFileConnector.row_index := 0;
                   CSVFileConnector.conn := c; CSVFileConnector.env := w |})
    as Hinv.
  assert (in_bounds file 0) as H0 by (unfold in_bounds, file; simpl; lia).
  specialize (Hinv H0).
  assert (forall s, in_bounds file (CSVFileConnector.row_index s) ->
            let i := CSVFileConnector.row_index s in
            in_bounds file i
            /\ is_ok (py_index file i) = true
            /\ py_mod (i + 1) (Z.of_nat (length file))
               = Ok ((i + 1) mod Z.of_nat (length file))) as Hall.
  { intros s Hs i. subst i. split; [done|]. split.
    - by destruct (py_index_in_bounds file _ Hs) as (r & -> & _).
    - by destruct (py_mod_in_bounds file _ Hs) as [-> _]. }
  destruct (while_polling _ _ _); by apply Hall.
Qed.

(** ** Failures inside a polling loop *)

(** C6, evaluated.  A CSV connector over a file with one row, with a
    callback that raises on every reading, scheduled for three iterations:
    the exception leaves [_read_loop] at the first one, nothing is logged and
    the thread is over after one delivery.  The REST connector with the same
    callback, scheduled for two iterations and then stopped, logs the
    exception (twice per iteration) and keeps polling until it is stopped. *)
Theorem csv_loop_callback_failure_ends_thread :
  match CSVFileConnector._read_loop Sample.utcnow_iso Sample.py_float
          (Ok Sample.one_row_file) (Sample.csv_connector Sample.failing_sink)
          world0 [(false, tt); (false, tt); (false, tt)] with
  | Crashed e s =>
      e = OtherError "OperationalError"
      /\ length (delivered (CSVFileConnector.env s)) = 1%nat
      /\ log (CSVFileConnector.env s) = []
  | _ => False
  end
  /\ match APIConnector._read_loop Sample.utcnow_iso
             (Sample.api_connector Sample.failing_sink) world0
             [(false, APIConnector.JsonValue Sample.json_sample);
              (false, APIConnector.JsonValue Sample.json_sample);
              (true, APIConnector.JsonValue Sample.json_sample)] with
     | Exited (c, w) =>
         length (delivered w) = 2%nat
         /\ map fst (log w) = [ERROR; ERROR; ERROR; ERROR]
     | _ => False
     end.
Proof. vm_compute. repeat split; reflexivity. Qed.

(** *** The loops that catch

    The REST, Modbus and OPC-UA loops run [_read_once] inside [try]: the
    only statement of an iteration that can raise is the sleep, and it does
    not when the interval is a non-negative number. *)













(** The sleep itself is outside the [try]: with a negative interval the
    REST loop ends by [ValueError] after its first read. *)
Lemma api_loop_negative_interval_escapes :
  match APIConnector._read_loop Sample.utcnow_iso
          (Sample.polling (API (PyStr "http://plant/api/pump001"))
             {| cfg_interval := Some (PyInt (-1)); cfg_unit_id := None;
                cfg_registers := []; cfg_nodes := [] |} SampleSupervisor.sink)
          world0
          [(false, APIConnector.JsonValue Sample.json_sample);
           (false, APIConnector.JsonValue Sample.json_sample)] with
  | Crashed e (c, w) =>
      e = ValueError "sleep length must be non-negative"
      /\ length (delivered w) = 1%nat
  | _ => False
  end.
Proof. vm_compute. repeat split; reflexivity. Qed.


(** ** Decoding a float from two Modbus registers *)

(** C2, evaluated.  [_decode_ieee] writes the two registers in the byte
    order of the host and reads the four bytes back most significant first.
    On a big-endian host the registers [0x447A, 0x0000] decode to 1000.0; on
    a little-endian host the two bytes of each register are swapped and the
    result is the binary32 number 0x7A440000, about 2.5e35, which is also
    what [_read_once] stores for a register spec of data type [float],
    count 2 and scaling 1.0.  A data type spelled [float32] is not one the
    code knows: it decodes as the first register. *)
Theorem decode_ieee_swaps_bytes_on_little_endian_host :
  ModbusConnector._decode_ieee ModbusConnector.BigEndian 0x447A 0x0000
  = Ok 1000%float
  /\ ModbusConnector._decode_ieee ModbusConnector.LittleEndian 0x447A 0x0000
     = Ok (ModbusConnector.binary32_to_float 0x7A440000)
  /\ ModbusConnector.binary32_to_float 0x7A440000 = 0x1.88p+117%float
  /\ PrimFloat.eqb 0x1.88p+117 1000 = false
  /\ match (ModbusConnector._read_once Sample.utcnow_iso
              ModbusConnector.LittleEndian SampleModbus.device
              (SampleModbus.connector_for
                 [("temperature", SampleModbus.temperature)]) world0).2 with
     | Ok [r] => r !! "temperature" = Some (PyFloat 0x1.88p+117)
     | _ => False
     end
  /\ (forall order,
        ModbusConnector.decode_registers order "float32" [0x447A; 0x0000]
        = Ok (PyInt 17530)).
Proof.
  repeat split; try (vm_compute; reflexivity).
Qed.

(** ** The rule-based prediction *)

(** What the rule-based branch returns, for every input: the probability
    is 0.4 for each of the two thresholds that is exceeded, and the days are
    [int(30 * (1 - p))] in binary64 arithmetic: 30, 18 or 5. *)
Lemma rule_based_cases (equipment_id : string) (readings : gmap string float) :
  let hot := PrimFloat.ltb 85 (default 70%float (readings !! "temperature")) in
  let shaking := PrimFloat.ltb 5 (default 3%float (readings !! "vibration")) in
  Prediction.rule_based equipment_id readings
  = Ok {| Prediction.resp_equipment_id := equipment_id;
          Prediction.resp_prediction :=
            {| Prediction.failure_probability :=
                 if hot then (if shaking then 0.8 else 0.4)
                 else (if shaking then 0.4 else 0);
               Prediction.remaining_useful_life_days :=
                 if hot then (if shaking then 5 else 18)
                 else (if shaking then 18 else 30);
               Prediction.recommended_action :=
                 if hot && shaking then "maintenance" else "monitor";
               Prediction.confidence := 0.7 |};
          Prediction.resp_note :=
            Some "Using rule-based prediction (no trained model found)" |}.
Proof.
  intros hot shaking. unfold Prediction.rule_based.
  fold hot. fold shaking. destruct hot, shaking; vm_compute; reflexivity.
Qed.

(** C3, evaluated.  With no model file, temperature 90 and vibration 6 give
    the probability 0.8 and the action "maintenance", and 5 remaining days:
    in binary64 arithmetic [1 - 0.8] is below 0.2 and [30 * (1 - 0.8)] is
    5.999999999999998, which [int] truncates to 5. *)
Theorem rule_based_prediction_at_90_and_6 :
  Prediction.run_prediction {["PUMP001"]} None "PUMP001"
    SampleData.hot_and_shaking
  = Ok {| Prediction.resp_equipment_id := "PUMP001";
          Prediction.resp_prediction :=
            {| Prediction.failure_probability := 0.8;
               Prediction.remaining_useful_life_days := 5;
               Prediction.recommended_action := "maintenance";
               Prediction.confidence := 0.7 |};
          Prediction.resp_note :=
            Some "Using rule-based prediction (no trained model found)" |}
  /\ (30 * (1 - (0.0 + 0.4 + 0.4)))%float = 0x1.7fffffffffffep+2%float
  /\ PrimFloat.ltb (30 * (1 - (0.0 + 0.4 + 0.4))) 6 = true
  /\ int_of_float (30 * (1 - (0.0 + 0.4 + 0.4))) = Ok 5.
Proof. repeat split; vm_compute; reflexivity. Qed.

(** ** Rolling features *)





























(** ** Reading the register map *)

Lemma decode_single_register (order : ModbusConnector.byteorder)
    (data_type : string) (r0 : Z) :
  ModbusConnector.decode_registers order data_type [r0] = Ok (PyInt r0).
Proof.
  unfold ModbusConnector.decode_registers. simpl.
  rewrite !andb_false_r. by case_bool_decide.
Qed.

(** The four outcomes of the pass for one register spec, by the branch
    taken. *)
Lemma read_register_unknown_type (order : ModbusConnector.byteorder)
    (dev : ModbusConnector.ModbusTcpClient) (unit : Z) (name : string)
    (cfg : register_config) :
  default "holding" (cfg_type cfg) ∉ ModbusConnector.known_register_types ->
  ModbusConnector.read_register order dev unit name cfg
  = Ok (ModbusConnector.Skip WARNING
          ("Unknown register type: " +:+ default "holding" (cfg_type cfg))).
Proof.
  unfold ModbusConnector.known_register_types.
  rewrite !not_elem_of_cons. intros (H1 & H2 & H3 & H4 & _).
  unfold ModbusConnector.read_register.
  by rewrite !bool_decide_eq_false_2.
Qed.

Lemma read_register_error_response (order : ModbusConnector.byteorder)
    (dev : ModbusConnector.ModbusTcpClient) (unit : Z) (name : string)
    (cfg : register_config) (repr : string) :
  ModbusConnector.answers_error dev unit cfg repr ->
  ModbusConnector.read_register order dev unit name cfg
  = Ok (ModbusConnector.Skip ERROR
          ("Error reading register " +:+ name +:+ ": " +:+ repr)).
Proof.
  unfold ModbusConnector.answers_error, ModbusConnector.read_register.
  intros [[-> H]|[[-> H]|[[-> H]|[-> H]]]]; simpl; by rewrite H.
Qed.

Lemma read_register_registers (order : ModbusConnector.byteorder)
    (dev : ModbusConnector.ModbusTcpClient) (unit : Z) (name : string)
    (cfg : register_config) (registers : list Z) :
  ModbusConnector.answers_registers dev unit cfg registers ->
  ModbusConnector.read_register order dev unit name cfg
  = (value ← ModbusConnector.decode_registers order
               (default "float" (cfg_data_type cfg)) registers;
     value ← py_mul value (default (PyFloat 1) (cfg_scaling cfg));
     Ok (ModbusConnector.Store value)).
Proof.
  unfold ModbusConnector.answers_registers, ModbusConnector.read_register.
  intros [[-> H]|[-> H]]; simpl; by rewrite H.
Qed.

Lemma read_register_bits (order : ModbusConnector.byteorder)
    (dev : ModbusConnector.ModbusTcpClient) (unit : Z) (name : string)
    (cfg : register_config) (bits : list bool) :
  ModbusConnector.answers_bits dev unit cfg bits ->
  ModbusConnector.read_register order dev unit name cfg
  = (b ← py_index bits 0; Ok (ModbusConnector.Store (PyBool b))).
Proof.
  unfold ModbusConnector.answers_bits, ModbusConnector.read_register.
  intros [[-> H]|[-> H]]; simpl; by rewrite H.
Qed.

(** A pass that skips its field has taken one of the two skipping
    branches. *)
Lemma read_register_skip_inv (order : ModbusConnector.byteorder)
    (dev : ModbusConnector.ModbusTcpClient) (unit : Z) (name : string)
    (cfg : register_config) (l : level) (msg : string) :
  ModbusConnector.read_register order dev unit name cfg
  = Ok (ModbusConnector.Skip l msg) ->
  ((default "holding" (cfg_type cfg)
    ∉ ModbusConnector.known_register_types)
   /\ l = WARNING
   /\ msg = "Unknown register type: " +:+ default "holding" (cfg_type cfg))
  \/ (exists repr,
        ModbusConnector.answers_error dev unit cfg repr
        /\ l = ERROR
        /\ msg = "Error reading register " +:+ name +:+ ": " +:+ repr).
Proof.
  unfold ModbusConnector.read_register, ModbusConnector.answers_error,
    ModbusConnector.known_register_types.
  case_bool_decide as H1.
  { destruct (ModbusConnector.read_holding_registers _ _ _ _)
      as [[repr|registers]|e] eqn:Hread; simpl; [| |done].
    - intros [= <- <-]. right. exists repr. by auto.
    - destruct (ModbusConnector.decode_registers _ _ _); simpl; [|done].
      by destruct (py_mul _ _). }
  case_bool_decide as H2.
  { destruct (ModbusConnector.read_input_registers _ _ _ _)
      as [[repr|registers]|e] eqn:Hread; simpl; [| |done].
    - intros [= <- <-]. right. exists repr. by auto.
    - destruct (ModbusConnector.decode_registers _ _ _); simpl; [|done].
      by destruct (py_mul _ _). }
  case_bool_decide as H3.
  { destruct (ModbusConnector.read_coils _ _ _ _)
      as [[repr|bits]|e] eqn:Hread; simpl; [| |done].
    - intros [= <- <-]. right. exists repr. by auto 6.
    - by destruct (py_index _ _). }
  case_bool_decide as H4.
  { destruct (ModbusConnector.read_discrete_inputs _ _ _ _)
      as [[repr|bits]|e] eqn:Hread; simpl; [| |done].
    - intros [= <- <-]. right. exists repr. by auto 6.
    - by destruct (py_index _ _). }
  intros [= <- <-]. left. split; [|done].
  rewrite !not_elem_of_cons. repeat split; try done. apply not_elem_of_nil.
Qed.

(** C5, as the code has it.  A register spec is not skipped for a count
    that is too small for its data type: when the read of a holding or input
    register returns a single register, the field is decoded as that
    register times the scaling and stored, whatever the data type ([float]
    and [int32] included), and nothing is logged.  A field is skipped in
    two cases and no other: an unknown register type, logged as a warning,
    and an error response of the read, logged as an error; a coil or
    discrete input that is read is stored as its first bit. *)
Theorem single_register_is_decoded_not_skipped
    (order : ModbusConnector.byteorder)
    (dev : ModbusConnector.ModbusTcpClient) (unit : Z) (name : string)
    (cfg : register_config) :
  let register_type := default "holding" (cfg_type cfg) in
  let scaling := default (PyFloat 1) (cfg_scaling cfg) in
  (forall r0 : Z,
     ModbusConnector.answers_registers dev unit cfg [r0] ->
     ModbusConnector.read_register order dev unit name cfg
     = match py_mul (PyInt r0) scaling with
       | Ok value => Ok (ModbusConnector.Store value)
       | Raise e => Raise e
       end)
  /\ (forall (l : level) (msg : string),
        ModbusConnector.read_register order dev unit name cfg
        = Ok (ModbusConnector.Skip l msg)
        <-> ((register_type ∉ ModbusConnector.known_register_types)
             /\ l = WARNING
             /\ msg = "Unknown register type: " +:+ register_type)
            \/ (exists repr,
                  ModbusConnector.answers_error dev unit cfg repr
                  /\ l = ERROR
                  /\ msg = "Error reading register " +:+ name +:+ ": "
                           +:+ repr))
  /\ (forall (bits : list bool) (b : bool),
        ModbusConnector.answers_bits dev unit cfg bits ->
        py_index bits 0 = Ok b ->
        ModbusConnector.read_register order dev unit name cfg
        = Ok (ModbusConnector.Store (PyBool b))).
Proof.
  intros register_type scaling. split; [|split].
  - intros r0 H. rewrite (read_register_registers _ _ _ _ _ _ H).
    rewrite decode_single_register. simpl. subst scaling.
    by destruct (py_mul _ _).
  - intros l msg. split; [apply read_register_skip_inv|].
    intros [(H & -> & ->)|(repr & H & -> & ->)].
    + by apply read_register_unknown_type.
    + by apply read_register_error_response.
  - intros bits b H Hb. rewrite (read_register_bits _ _ _ _ _ _ H).
    by rewrite Hb.
Qed.

(** The sample spec [pressure], a float over one register, is stored as
    7.0; the spec [idle], whose count of 0 the device answers with an error
    response, is skipped with an error record. *)
Lemma single_register_is_decoded_witness :
  ModbusConnector.read_holding_registers SampleModbus.device 2 1 1
  = Ok (ModbusConnector.Values [7])
  /\ ModbusConnector.read_register ModbusConnector.BigEndian
       SampleModbus.device 1 "pressure" SampleModbus.pressure
     = Ok (ModbusConnector.Store (PyFloat 7))
  /\ ModbusConnector.read_register ModbusConnector.BigEndian
       SampleModbus.device 1 "idle" SampleModbus.idle
     = Ok (ModbusConnector.Skip ERROR
             "Error reading register idle: Exception Response(131, 3)").
Proof.
  split; [reflexivity|]. split.
  - apply (proj1 (single_register_is_decoded_not_skipped
                    ModbusConnector.BigEndian SampleModbus.device 1
                    "pressure" SampleModbus.pressure) 7).
    left. split; reflexivity.
  - apply (proj1 (proj2 (single_register_is_decoded_not_skipped
                           ModbusConnector.BigEndian SampleModbus.device 1
                           "idle" SampleModbus.idle))).
    right. exists "Exception Response(131, 3)".
    split; [|split; reflexivity]. left. split; reflexivity.
Defined.

(** Against C5 as stated: a spec of data type [float] with count 1 is read
    without a log record and a value is stored under its name. *)
Lemma short_float_register_yields_a_value :
  cfg_data_type SampleModbus.pressure = Some "float"
  /\ cfg_count SampleModbus.pressure = Some 1
  /\ match ModbusConnector.read_registers ModbusConnector.BigEndian
             SampleModbus.device 1 [("pressure", SampleModbus.pressure)]
             ∅ world0 with
     | (w, Ok fields) =>
         fields !! "pressure" = Some (PyFloat 7) /\ log w = []
     | _ => False
     end.
Proof. vm_compute. repeat split; reflexivity. Qed.

(** The [for] loop of [_read_once] delivers nothing and does not read the
    clock. *)
Lemma read_registers_world (order : ModbusConnector.byteorder)
    (dev : ModbusConnector.ModbusTcpClient) (unit : Z)
    (items : list (string * register_config)) :
  forall (acc : reading) (w : world),
  clock (ModbusConnector.read_registers order dev unit items acc w).1
  = clock w
  /\ delivered (ModbusConnector.read_registers order dev unit items acc w).1
     = delivered w.
Proof.
  induction items as [|[name cfg] rest IH]; intros acc w; [done|]. simpl.
  destruct (ModbusConnector.read_register order dev unit name cfg)
    as [[l msg|v]|e]; [|apply IH|done].
  destruct (IH acc (emit l msg w)) as [-> ->]. done.
Qed.

(** The [for] loop of [_read_once], when no pass raises: it ends with the
    dict that holds, for every item of the register map, the value of its
    [Store] and nothing for a [Skip]. *)
Lemma read_registers_spec (order : ModbusConnector.byteorder)
    (dev : ModbusConnector.ModbusTcpClient) (unit : Z)
    (items : list (string * register_config)) :
  forall (acc : reading) (w : world),
  NoDup items.*1 ->
  Forall (fun item => is_ok (ModbusConnector.read_register order dev unit
                               item.1 item.2) = true) items ->
  exists w1 fields,
    ModbusConnector.read_registers order dev unit items acc w
    = (w1, Ok fields)
    /\ (forall name cfg, (name, cfg) ∈ items ->
          match ModbusConnector.read_register order dev unit name cfg with
          | Ok (ModbusConnector.Store v) => fields !! name = Some v
          | _ => fields !! name = acc !! name
          end)
    /\ (forall name, name ∉ items.*1 -> fields !! name = acc !! name).
Proof.
  induction items as [|[name cfg] rest IH]; intros acc w Hnd Hok.
  - exists w, acc. split; [done|]. split; [|done].
    intros name cfg Hin. by apply elem_of_nil in Hin.
  - apply NoDup_cons in Hnd as [Hname Hnd].
    apply Forall_cons in Hok as [Hhd Hok]. simpl in Hhd |- *.
    destruct (ModbusConnector.read_register order dev unit name cfg)
      as [[l msg|v]|e] eqn:Hread; [| |done].
    + destruct (IH acc (emit l msg w) Hnd Hok)
        as (w1 & fields & -> & Hin & Hout).
      exists w1, fields. split; [done|]. split.
      * intros n c [Heq|Hrest]%elem_of_cons.
        -- injection Heq as -> ->. rewrite Hread. by apply Hout.
        -- by apply Hin.
      * intros n [Hne Hn]%not_elem_of_cons. by apply Hout.
    + destruct (IH (<[name := v]> acc) w Hnd Hok)
        as (w1 & fields & -> & Hin & Hout).
      exists w1, fields. split; [done|]. split.
      * intros n c [Heq|Hrest]%elem_of_cons.
        -- injection Heq as -> ->. rewrite Hread.
           rewrite Hout by done. by rewrite lookup_insert_eq.
        -- specialize (Hin n c Hrest).
           assert (n <> name) as Hne.
           { intros ->. apply Hname. apply list_elem_of_fmap.
             by exists (name, c). }
           destruct (ModbusConnector.read_register order dev unit n c)
             as [[]|]; rewrite Hin; try done;
             by rewrite lookup_insert_ne.
      * intros n [Hne Hn]%not_elem_of_cons. rewrite Hout by done.
        by rewrite lookup_insert_ne.
Qed.

(** C4, as the code has it.  When no pass over the register map raises,
    [_read_once] of the Modbus connector skips the field of a spec whose
    register type is unknown or whose read is answered by an error
    response, and only that field: every spec whose read returns registers
    or bits has its field in the dict, with the decoded value times the
    scaling (the first register times the scaling when a single register is
    returned, the first bit for a coil or a discrete input), and the dict
    holds no other name.  The dict is handed to [process_reading], so the
    reading is built from it and delivered to the callback whatever the
    number of fields, also when there is none. *)
Theorem modbus_read_once_emits_the_stored_fields
    (utcnow_iso : nat -> string) (order : ModbusConnector.byteorder)
    (dev : ModbusConnector.ModbusTcpClient) (c : connector) (w : world) :
  let items := cfg_registers (config c) in
  let unit := ModbusConnector.unit_id c in
  NoDup items.*1 ->
  Forall (fun item => is_ok (ModbusConnector.read_register order dev unit
                               item.1 item.2) = true) items ->
  exists w1 fields,
    ModbusConnector.read_registers order dev unit items ∅ w = (w1, Ok fields)
    /\ ModbusConnector._read_once utcnow_iso order dev c w
       = (let '(w2, c2, r) :=
            process_reading utcnow_iso c (DataDict fields) w1 in
          (w2, c2, match r with Ok r => Ok [r] | Raise e => Raise e end))
    /\ (forall cb, callback c = Some cb ->
          delivered (ModbusConnector._read_once utcnow_iso order dev c w).1.1
          = (delivered w
             ++ [build_reading c (utcnow_iso (clock w)) (DataDict fields)])
            %list)
    /\ (forall name cfg, (name, cfg) ∈ items ->
          let register_type := default "holding" (cfg_type cfg) in
          let data_type := default "float" (cfg_data_type cfg) in
          let scaling := default (PyFloat 1) (cfg_scaling cfg) in
          (register_type ∉ ModbusConnector.known_register_types ->
           fields !! name = None)
          /\ (forall repr,
                ModbusConnector.answers_error dev unit cfg repr ->
                fields !! name = None)
          /\ (forall registers,
                ModbusConnector.answers_registers dev unit cfg registers ->
                exists raw value,
                  ModbusConnector.decode_registers order data_type registers
                  = Ok raw
                  /\ py_mul raw scaling = Ok value
                  /\ fields !! name = Some value)
          /\ (forall r0,
                ModbusConnector.answers_registers dev unit cfg [r0] ->
                exists value,
                  py_mul (PyInt r0) scaling = Ok value
                  /\ fields !! name = Some value)
          /\ (forall bits,
                ModbusConnector.answers_bits dev unit cfg bits ->
                exists b,
                  py_index bits 0 = Ok b
                  /\ fields !! name = Some (PyBool b)))
    /\ (forall name, name ∉ items.*1 -> fields !! name = None).
Proof.
  intros items unit Hnd Hok.
  destruct (read_registers_spec order dev unit items ∅ w Hnd Hok)
    as (w1 & fields & Hread & Hin & Hout).
  destruct (read_registers_world order dev unit items ∅ w) as [Hclock Hdel].
  rewrite Hread in Hclock, Hdel. simpl in Hclock, Hdel.
  assert (ModbusConnector._read_once utcnow_iso order dev c w
          = (let '(w2, c2, r) :=
               process_reading utcnow_iso c (DataDict fields) w1 in
             (w2, c2, match r with Ok r => Ok [r] | Raise e => Raise e end)))
    as Honce.
  { unfold ModbusConnector._read_once. fold items unit. rewrite Hread.
    by destruct (process_reading _ _ _ _) as [[w2 c2] [r|e]]. }
  exists w1, fields. split; [done|]. split; [done|]. split; [|split].
  - intros cb Hcb. rewrite Honce. unfold process_reading. simpl.
    rewrite Hcb. simpl. by rewrite Hclock, Hdel.
  - intros name cfg Hitem register_type data_type scaling.
    specialize (Hin name cfg Hitem).
    assert (is_ok (ModbusConnector.read_register order dev unit name cfg)
            = true) as Hname.
    { rewrite Forall_forall in Hok. by apply (Hok (name, cfg)). }
    split; [|split; [|split; [|split]]].
    + intros H.
      by rewrite (read_register_unknown_type _ _ _ _ _ H) in Hin.
    + intros repr H.
      by rewrite (read_register_error_response _ _ _ _ _ _ H) in Hin.
    + intros registers H.
      rewrite (read_register_registers _ _ _ _ _ _ H) in Hin, Hname.
      fold data_type scaling in Hin, Hname.
      destruct (ModbusConnector.decode_registers order data_type registers)
        as [raw|] eqn:Hraw; [|done]. simpl in Hin, Hname.
      destruct (py_mul raw scaling) as [value|] eqn:Hvalue; [|done].
      by exists raw, value.
    + intros r0 H.
      rewrite (read_register_registers _ _ _ _ _ _ H) in Hin, Hname.
      rewrite decode_single_register in Hin, Hname.
      fold scaling in Hin, Hname. simpl in Hin, Hname.
      destruct (py_mul (PyInt r0) scaling) as [value|] eqn:Hvalue; [|done].
      by exists value.
    + intros bits H.
      rewrite (read_register_bits _ _ _ _ _ _ H) in Hin, Hname.
      destruct (py_index bits 0) as [b|] eqn:Hb; [|done].
      by exists b.
  - intros name Hname. by rewrite Hout.
Qed.

Lemma sample_register_names_distinct :
  NoDup [("temperature", SampleModbus.temperature);
         ("flow", SampleModbus.flow); ("speed", SampleModbus.speed);
         ("idle", SampleModbus.idle); ("valve", SampleModbus.valve)].*1.
Proof.
  simpl.
  repeat (apply NoDup_cons; split;
          [rewrite ?elem_of_cons, elem_of_nil; intuition discriminate|]).
  apply NoDup_nil_2.
Qed.

Lemma sample_registers_raise_nothing :
  Forall (fun item => is_ok (ModbusConnector.read_register
                               ModbusConnector.BigEndian SampleModbus.device
                               1 item.1 item.2) = true)
    [("temperature", SampleModbus.temperature);
     ("flow", SampleModbus.flow); ("speed", SampleModbus.speed);
     ("idle", SampleModbus.idle); ("valve", SampleModbus.valve)].
Proof. repeat constructor. Qed.

(** A well-formed spec, a coil, a spec with an unknown register type and
    two whose read is answered by an error response (an address that the
    device does not have, a count of 0): the reading is delivered with the
    fields of the first two only. *)
Lemma modbus_read_once_emits_the_stored_fields_witness :
  let c := SampleModbus.connector_for
             [("temperature", SampleModbus.temperature);
              ("flow", SampleModbus.flow); ("speed", SampleModbus.speed);
              ("idle", SampleModbus.idle); ("valve", SampleModbus.valve)] in
  exists w1 fields,
    ModbusConnector.read_registers ModbusConnector.BigEndian
      SampleModbus.device 1 (cfg_registers (config c)) ∅ world0
    = (w1, Ok fields)
    /\ fields !! "temperature" = Some (PyFloat 1000)
    /\ fields !! "valve" = Some (PyBool true)
    /\ fields !! "flow" = None
    /\ fields !! "speed" = None
    /\ fields !! "idle" = None
    /\ (forall name,
          name ∉ ["temperature"; "flow"; "speed"; "idle"; "valve"] ->
          fields !! name = None)
    /\ delivered (ModbusConnector._read_once Sample.utcnow_iso
                    ModbusConnector.BigEndian SampleModbus.device c
                    world0).1.1
       = [build_reading c (Sample.utcnow_iso 0) (DataDict fields)]
    /\ log w1
       = [(WARNING, "Unknown register type: holdng");
          (ERROR, "Error reading register speed: Exception Response(131, 3)");
          (ERROR, "Error reading register idle: Exception Response(131, 3)")].
Proof.
  intros c.
  destruct (modbus_read_once_emits_the_stored_fields Sample.utcnow_iso
              ModbusConnector.BigEndian SampleModbus.device c world0
              sample_register_names_distinct sample_registers_raise_nothing)
    as (w1 & fields & Hread & Honce & Hdel & Hin & Hout).
  exists w1, fields. split; [exact Hread|].
  assert (forall name cfg, In (name, cfg) (cfg_registers (config c)) ->
            (name, cfg) ∈ cfg_registers (config c)) as Hmem.
  { intros name cfg H. by apply list_elem_of_In. }
  split.
  { destruct (Hin "temperature" SampleModbus.temperature) as (_ & _ & H & _).
    { apply Hmem. simpl. tauto. }
    destruct (H [0x447A; 0]) as (raw & value & Hraw & Hvalue & Hfield).
    { left. split; reflexivity. }
    vm_compute in Hraw. injection Hraw as <-.
    vm_compute in Hvalue. injection Hvalue as <-. exact Hfield. }
  split.
  { destruct (Hin "valve" SampleModbus.valve) as (_ & _ & _ & _ & H).
    { apply Hmem. simpl. tauto. }
    destruct (H [true]) as (b & Hb & Hfield).
    { left. split; reflexivity. }
    vm_compute in Hb. injection Hb as <-. exact Hfield. }
  split.
  { destruct (Hin "flow" SampleModbus.flow) as (H & _).
    { apply Hmem. simpl. tauto. }
    apply H. unfold ModbusConnector.known_register_types. simpl.
    rewrite !not_elem_of_cons. repeat split; try discriminate.
    apply not_elem_of_nil. }
  split.
  { destruct (Hin "speed" SampleModbus.speed) as (_ & H & _).
    { apply Hmem. simpl. tauto. }
    apply (H "Exception Response(131, 3)"). right. left.
    split; reflexivity. }
  split.
  { destruct (Hin "idle" SampleModbus.idle) as (_ & H & _).
    { apply Hmem. simpl. tauto. }
    apply (H "Exception Response(131, 3)"). left. split; reflexivity. }
  split; [exact Hout|]. split.
  { exact (Hdel (fun _ => Ok tt) eq_refl). }
  vm_compute in Hread. by injection Hread as <- _.
Defined.

(** Against C4 as stated.  With a well-formed spec and a float spec over a
    single register, the reading holds both fields.  With a well-formed spec
    and a spec whose scaling is a string, the multiplication raises
    [TypeError]: [_read_once] raises and no reading is delivered, although
    the first field had been decoded. *)
Lemma malformed_spec_is_stored_or_aborts_the_reading :
  match (ModbusConnector._read_once Sample.utcnow_iso
           ModbusConnector.BigEndian SampleModbus.device
           (SampleModbus.connector_for
              [("temperature", SampleModbus.temperature);
               ("pressure", SampleModbus.pressure)]) world0).2 with
  | Ok [r] =>
      r !! "temperature" = Some (PyFloat 1000)
      /\ r !! "pressure" = Some (PyFloat 7)
  | _ => False
  end
  /\ ModbusConnector.read_register ModbusConnector.BigEndian
       SampleModbus.device 1 "temperature" SampleModbus.temperature
     = Ok (ModbusConnector.Store (PyFloat 1000))
  /\ match ModbusConnector._read_once Sample.utcnow_iso
             ModbusConnector.BigEndian SampleModbus.device
             (SampleModbus.connector_for
                [("temperature", SampleModbus.temperature);
                 ("level", SampleModbus.level)]) world0 with
     | (w, _, Raise e) => e = TypeError /\ delivered w = []
     | _ => False
     end.
Proof. vm_compute. repeat split; reflexivity. Qed.

(** Below five rows, a frame without a timestamp column leaves the first
    half of [_engineer_features] as it came; with fewer than two numerical
    columns [_engineer_features] returns it unchanged. *)
Theorem no_rolling_features_below_five_rows
    (numerical_columns : list string) (df : DataProcessor.DataFrame) :
  (DataProcessor.nrows df < 5)%nat ->
  DataProcessor.timestamp df = None ->
  fold_left DataProcessor.add_rolling_features numerical_columns df = df
  /\ ((length numerical_columns < 2)%nat ->
      DataProcessor._engineer_features (Some numerical_columns) df = df).
Proof.
  intros Hrows Htime.
  assert (forall col, DataProcessor.add_rolling_features df col = df) as Hcol.
  { intros col. unfold DataProcessor.add_rolling_features.
    destruct (DataProcessor.has_column df col); [|done].
    destruct (Nat.leb_spec 5 (DataProcessor.nrows df)); [lia|].
    by rewrite Htime. }
  assert (fold_left DataProcessor.add_rolling_features numerical_columns df
          = df) as Hfold.
  { induction numerical_columns as [|col cols IH]; [done|].
    simpl. by rewrite Hcol. }
  split; [done|]. intros Hlen.
  unfold DataProcessor._engineer_features.
  change (default [] (Some numerical_columns)) with numerical_columns.
  rewrite Hfold.
  destruct (Nat.leb_spec 2 (length numerical_columns)); [lia|].
  by destruct ((1 <? DataProcessor.nrows df)%nat
               && negb (bool_decide (numerical_columns = []))).
Qed.

Lemma no_rolling_features_below_five_rows_witness :
  let df := {| DataProcessor.nrows := 1; DataProcessor.timestamp := None;
               DataProcessor.columns := [("x", [1%float])] |} in
  fold_left DataProcessor.add_rolling_features ["x"] df = df
  /\ ((length ["x"] < 2)%nat ->
      DataProcessor._engineer_features (Some ["x"]) df = df).
Proof.
  apply (no_rolling_features_below_five_rows ["x"]
           {| DataProcessor.nrows := 1; DataProcessor.timestamp := None;
              DataProcessor.columns := [("x", [1%float])] |});
    [simpl; lia|reflexivity].
Defined.

(** ** Reading a CSV file once *)






(** ** Reading the OPC-UA nodes once *)

(** [_read_once] of the OPC-UA connector, for node names that are
    distinct: a node whose read raises is left out of the reading and
    logged as an error, every other node is in it with its value, and the
    reading is handed to [process_reading] whatever the number of
    fields. *)
Theorem opcua_read_once_omits_failed_nodes (utcnow_iso : nat -> string)
    (node_value : string -> result pyval) (c : connector) (w : world) :
  let nodes := cfg_nodes (config c) in
  NoDup nodes.*1 ->
  exists w1 fields,
    OPCUAConnector.read_nodes node_value nodes ∅ w = (w1, fields)
    /\ OPCUAConnector._read_once utcnow_iso node_value c w
       = (let '(w2, c2, r) :=
            process_reading utcnow_iso c (DataDict fields) w1 in
          (w2, c2, match r with Ok r => Ok [r] | Raise e => Raise e end))
    /\ (forall name node_id, (name, node_id) ∈ nodes ->
          fields !! name
          = match node_value node_id with Ok v => Some v | Raise _ => None end)
    /\ (forall name, name ∉ nodes.*1 -> fields !! name = None)
    /\ delivered w1 = delivered w /\ clock w1 = clock w
    /\ Forall (fun rec => rec.1 = ERROR) (drop (length (log w)) (log w1)).
Proof.
  intros nodes Hnd.
  assert (forall (items : list (string * string)) (acc : reading) (w0 : world),
            NoDup items.*1 ->
            exists w1 fields,
              OPCUAConnector.read_nodes node_value items acc w0 = (w1, fields)
              /\ (forall name node_id, (name, node_id) ∈ items ->
                    fields !! name
                    = match node_value node_id with
                      | Ok v => Some v
                      | Raise _ => acc !! name
                      end)
              /\ (forall name, name ∉ items.*1 -> fields !! name = acc !! name)
              /\ delivered w1 = delivered w0 /\ clock w1 = clock w0
              /\ exists new, log w1 = (log w0 ++ new)%list
                             /\ Forall (fun rec => rec.1 = ERROR) new)
    as Hloop.
  { induction items as [|[name node_id] rest IH]; intros acc w0 Hno.
    - exists w0, acc. repeat split; try done.
      + intros n i Hin. by apply elem_of_nil in Hin.
      + exists []. by rewrite app_nil_r.
    - apply NoDup_cons in Hno as [Hname Hno]. simpl.
      destruct (node_value node_id) as [v|e] eqn:Hval.
      + destruct (IH (<[name := v]> acc) w0 Hno)
          as (w1 & fields & -> & Hin & Hout & Hdel & Hclock & Hlog).
        exists w1, fields. repeat split; try done.
        * intros n i [Heq|Hrest]%elem_of_cons.
          -- injection Heq as -> ->. rewrite Hval, Hout by done.
             by rewrite lookup_insert_eq.
          -- rewrite (Hin n i Hrest).
             assert (n <> name) as Hne.
             { intros ->. apply Hname. apply list_elem_of_fmap.
               by exists (name, i). }
             destruct (node_value i); [done|]. by rewrite lookup_insert_ne.
        * intros n [Hne Hn]%not_elem_of_cons. rewrite Hout by done.
          by rewrite lookup_insert_ne.
      + destruct (IH acc (emit ERROR
                            ("Error reading node " +:+ name +:+ " (" +:+ node_id
                             +:+ "): " +:+ str_exn e) w0) Hno)
          as (w1 & fields & -> & Hin & Hout & Hdel & Hclock & new & Hlog & Hnew).
        exists w1, fields. repeat split; try done.
        * intros n i [Heq|Hrest]%elem_of_cons.
          -- injection Heq as -> ->. rewrite Hval. by apply Hout.
          -- by apply Hin.
        * intros n [Hne Hn]%not_elem_of_cons. by apply Hout.
        * eexists (_ :: new). simpl in Hlog. rewrite <- app_assoc in Hlog.
          split; [exact Hlog|]. by constructor. }
  destruct (Hloop nodes ∅ w Hnd)
    as (w1 & fields & Hread & Hin & Hout & Hdel & Hclock & new & Hlog & Hnew).
  exists w1, fields. split; [done|]. split; [|split; [|split; [|split; [|split]]]].
  - unfold OPCUAConnector._read_once. fold nodes. rewrite Hread.
    by destruct (process_reading _ _ _ _) as [[w2 c2] [r|e]].
  - intros name node_id Hitem. rewrite (Hin name node_id Hitem).
    by destruct (node_value node_id).
  - intros name Hname. by rewrite Hout.
  - done.
  - done.
  - rewrite Hlog, drop_app_length. done.
Qed.

Lemma opcua_read_once_omits_failed_nodes_witness :
  let c := Sample.polling (OPCUA (PyStr "opc.tcp://plant:4840"))
             {| cfg_interval := None; cfg_unit_id := None; cfg_registers := [];
                cfg_nodes := [("temperature", "ns=2;i=2"); ("flow", "ns=2;i=9")]
             |} SampleSupervisor.sink in
  let node_value := fun node_id : string =>
                      if bool_decide (node_id = "ns=2;i=2")
                      then Ok (PyFloat 71.5)
                      else Raise (OtherError "BadNodeIdUnknown") in
  exists w1 fields,
    OPCUAConnector.read_nodes node_value (cfg_nodes (config c)) ∅ world0
    = (w1, fields)
    /\ fields !! "temperature" = Some (PyFloat 71.5)
    /\ fields !! "flow" = None.
Proof.
  intros c node_value.
  destruct (opcua_read_once_omits_failed_nodes Sample.utcnow_iso node_value
              c world0)
    as (w1 & fields & Hread & _ & Hin & _).
  - simpl.
    repeat (apply NoDup_cons; split;
            [rewrite ?elem_of_cons, elem_of_nil; intuition discriminate|]).
    apply NoDup_nil_2.
  - exists w1, fields. split; [done|]. split.
    + apply (Hin "temperature" "ns=2;i=2"). simpl. by left.
    + apply (Hin "flow" "ns=2;i=9"). simpl. right. by left.
Defined.

(** ** The registry of active connectors *)

Import Supervisor.


(** [create_connector] returns a fresh object. *)
Lemma create_connector_fresh (E : environment) (eid ty : string)
    (args : list pyval) (cfg : connector_config) (c : connector) :
  create_connector E eid ty args cfg = Ok c ->
  c = new_connector eid (src c) cfg.
Proof.
  unfold create_connector. intros H.
  repeat (case_match; simplify_eq); done.
Qed.




Lemma omap_cons_unfold {A B} (f : A -> option B) (x : A) (l : list A) :
  omap f (x :: l)
  = match f x with Some y => y :: omap f l | None => omap f l end.
Proof. done. Qed.







(** ** Stopping a connector *)

Lemma wait_for_thread_bounded (has_thread : bool) (st : thread_status) :
  0 <= (wait_for_thread has_thread st).1 <= join_timeout_ms.
Proof.
  unfold wait_for_thread, join, join_timeout_ms.
  destruct has_thread, st as [|ms|]; simpl; try lia.
  destruct (Z.leb_spec ms 2000); simpl; lia.
Qed.

Lemma wait_for_thread_alive (has_thread : bool) (st : thread_status) :
  (wait_for_thread has_thread st).2 = true <->
  has_thread = true
  /\ (st = NeverExits
      \/ exists ms, st = ExitsAfter ms /\ join_timeout_ms < ms).
Proof.
  unfold wait_for_thread, join, join_timeout_ms.
  destruct has_thread; simpl; [|by split; [|intros []]].
  destruct st as [|ms|]; simpl.
  - split; [done|]. by intros [_ [|(ms & ? & _)]].
  - destruct (Z.leb_spec ms 2000); simpl.
    + split; [done|]. intros [_ [|(ms' & [= <-] & ?)]]; [done|lia].
    + split; [|done]. intros _. split; [done|]. right. by exists ms.
  - split; [|done]. intros _. split; [done|]. by left.
Qed.

(** C7, as the code has it.  [stop_connector] for a registered id whose
    connector closes its client without an exception (a CSV or REST
    connector has no client): [disconnect] clears the [connected] and [loop]
    flags and, when the polling thread is alive, joins it for at most two
    seconds; whether or not the thread has returned by then, the only record
    logged is the INFO record of [disconnect], the entry is removed from
    the registry and the response is the one of a stop. *)
Theorem stop_connector_removes_entry_without_timeout_report
    (E : environment) (eid : string) (s : state) (ref : nat) (c : connector) :
  active_connectors s !! eid = Some ref ->
  store s !! ref = Some c ->
  (has_client (src c) && client c = true -> client_close E c = Ok tt) ->
  let waited := wait_for_thread (thread c) (thread_status_of E c) in
  exists s',
    stop_connector E eid s
    = (s', Ok [("message", "Connector stopped successfully");
               ("equipment_id", eid)])
    /\ active_connectors s' !! eid = None
    /\ store s' !! ref = Some (set_loop false (set_connected false c))
    /\ joins s' = (joins s ++ [(ref, waited.1, waited.2)])%list
    /\ 0 <= waited.1 <= join_timeout_ms
    /\ (waited.2 = true <->
        thread c = true
        /\ (thread_status_of E c = NeverExits
            \/ exists ms, thread_status_of E c = ExitsAfter ms
                          /\ join_timeout_ms < ms))
    /\ logged s' = (logged s ++ [(INFO, disconnect_message (src c))])%list.
Proof.
  intros Hact Hst Hclose waited. unfold stop_connector. rewrite Hact, Hst.
  unfold disconnect.
  assert ((if has_client (src c) && client c then client_close E c
           else Ok tt) = Ok tt) as ->.
  { destruct (has_client (src c) && client c); [by apply Hclose|done]. }
  simpl. eexists. split; [reflexivity|]. simpl.
  split; [apply lookup_delete_eq|].
  split; [apply list_lookup_insert_eq; by eapply lookup_lt_Some|].
  split; [done|].
  split; [apply wait_for_thread_bounded|].
  split; [apply wait_for_thread_alive|done].
Qed.

(** The CSV connector of PUMP001, whose thread does not return within the
    two seconds, is stopped. *)
Lemma stop_connector_removes_entry_witness :
  active_connectors SampleSupervisor.with_csv !! "PUMP001" = Some 0%nat
  /\ exists s',
       stop_connector SampleSupervisor.env "PUMP001" SampleSupervisor.with_csv
       = (s', Ok [("message", "Connector stopped successfully");
                  ("equipment_id", "PUMP001")])
       /\ active_connectors s' !! "PUMP001" = None
       /\ joins s' = [(0%nat, 2000, true)]
       /\ logged s'
          = [(INFO, "Connected to CSV file: pump001.csv");
             (INFO, "Disconnected from CSV file: pump001.csv")].
Proof.
  split; [reflexivity|].
  destruct (stop_connector_removes_entry_without_timeout_report
              SampleSupervisor.env "PUMP001" SampleSupervisor.with_csv 0%nat
              (Sample.polling (CSVFile (PyStr "pump001.csv"))
                 Sample.no_options SampleSupervisor.sink)
              eq_refl eq_refl (fun H => False_ind _ (Bool.diff_false_true H)))
    as (s' & Hstop & Hact & _ & Hjoins & _ & _ & Hlog).
  exists s'. repeat split; done.
Defined.

(** Against C7 as stated: the thread of the stopped connector is still alive
    after the two seconds of the join, and no record of level WARNING (or
    ERROR) has been logged; the call returns as for a thread that ended. *)
Lemma join_timeout_is_not_reported :
  let '(s', r) :=
    stop_connector SampleSupervisor.env "PUMP001" SampleSupervisor.with_csv in
  joins s' = [(0%nat, join_timeout_ms, true)]
  /\ has_level WARNING (logged s') = false
  /\ has_level ERROR (logged s') = false
  /\ is_ok r = true.
Proof. vm_compute. repeat split; reflexivity. Qed.

(** ** The registry and the store *)

Lemma log_error_well_formed (msg : string) (s : state) :
  well_formed s -> well_formed (log_error msg s).
Proof. done. Qed.

Lemma stop_connector_well_formed (E : environment) (eid : string)
    (s : state) :
  well_formed s -> well_formed (stop_connector E eid s).1.
Proof.
  intros Hwf. unfold stop_connector.
  destruct (active_connectors s !! eid) as [ref|] eqn:Hact; [|done].
  destruct (store s !! ref) as [c|] eqn:Hst; [|done].
  destruct (returned (disconnect E c)); simpl.
  - intros k r Hk. simpl in *.
    apply lookup_delete_Some in Hk as [_ Hk].
    rewrite length_insert. by eapply Hwf.
  - intros k r Hk. simpl in *. rewrite length_insert. by eapply Hwf.
Qed.

Lemma start_connector_well_formed (E : environment) (cb : callback_t)
    (cfg : ConnectorConfig) (s : state) :
  well_formed s -> well_formed (start_connector E cb cfg s).1.
Proof.
  intros Hwf. unfold start_connector.
  destruct (create_connector _ _ _ _ _) as [c0|e]; [|done].
  destruct (connect E (set_callback cb c0)) as [[recs c1] [b|e]].
  - destruct (read_data_loop c1) as [c2 [[]|e]]; simpl.
    + intros k r Hk. simpl in *. rewrite length_insert, length_app. simpl.
      destruct (decide (k = config_equipment_id cfg)) as [->|Hne].
      * rewrite lookup_insert_eq in Hk. injection Hk as <-. lia.
      * rewrite lookup_insert_ne in Hk by done.
        specialize (Hwf k r Hk). lia.
    + intros k r Hk. simpl in *. rewrite length_app.
      specialize (Hwf k r Hk). lia.
  - intros k r Hk. simpl in *. rewrite length_app.
    specialize (Hwf k r Hk). lia.
Qed.

(** In [main.py] the registry holds the connector objects themselves; here
    it holds their positions in the store.  The handlers keep every
    position inside the store, so that the lookup of a registered object
    never fails: [stop_connector] always finds the object of a registered
    id and [list_connectors] has a row for every entry. *)
Lemma handlers_keep_registry_well_formed (E : environment)
    (cb : callback_t) (cfg : ConnectorConfig) (eid : string) (s : state) :
  well_formed s ->
  well_formed (setup_connector E cb cfg s).1
  /\ well_formed (stop_connector E eid s).1
  /\ length (list_connectors s) = size (active_connectors s).
Proof.
  intros Hwf. split; [|split].
  - unfold setup_connector.
    destruct (active_connectors s !! config_equipment_id cfg).
    + pose proof (stop_connector_well_formed E (config_equipment_id cfg) s
                    Hwf) as Hstop.
      destruct (stop_connector E (config_equipment_id cfg) s)
        as [s1 [r1|e1]]; simpl in Hstop; [|done].
      pose proof (start_connector_well_formed E cb cfg s1 Hstop) as Hstart.
      by destruct (start_connector E cb cfg s1) as [s2 [r2|e2]].
    + pose proof (start_connector_well_formed E cb cfg s Hwf) as Hstart.
      by destruct (start_connector E cb cfg s) as [s2 [r2|e2]].
  - by apply stop_connector_well_formed.
  - unfold list_connectors. rewrite <- length_map_to_list.
    assert (forall l : list (string * nat),
              (forall item, item ∈ l -> (item.2 < length (store s))%nat) ->
              length (omap (connector_row s) l) = length l) as Hall.
    { induction l as [|item l IH]; intros Hl; [done|].
      rewrite omap_cons_unfold. unfold connector_row at 1.
      destruct (lookup_lt_is_Some_2 (store s) item.2) as [c ->].
      - apply Hl. by left.
      - simpl. f_equal. apply IH. intros i Hi. apply Hl. by right. }
    apply Hall. intros [k r] Hitem%elem_of_map_to_list. simpl.
    by eapply Hwf.
Qed.

Lemma handlers_keep_registry_well_formed_witness :
  well_formed initial
  /\ well_formed
       (setup_connector SampleSupervisor.env SampleSupervisor.sink
          SampleSupervisor.csv_setup initial).1
  /\ well_formed (stop_connector SampleSupervisor.env "PUMP001" initial).1
  /\ length (list_connectors initial) = size (active_connectors initial).
Proof.
  assert (well_formed initial) as H0 by (intros k r Hk; done).
  split; [exact H0|].
  exact (handlers_keep_registry_well_formed SampleSupervisor.env
           SampleSupervisor.sink SampleSupervisor.csv_setup "PUMP001" initial
           H0).
Defined.
